(** * crawler.py: the Roblox game scraper, embedded and verified

    A shallow embedding of [RobloxGameScraper] (src/crawler.py):
    [fetch_game_ids_from_api], [fetch_game_details], [scrape_games].

    Python values that travel through the program are the values
    [response.json()] can produce, plus the dictionaries the program
    builds itself.  Dictionaries are association lists in insertion
    order with pairwise distinct keys (the order is what a table writer
    sees as column order).  JSON numbers with a fraction or an exponent
    are outside the model: identifiers, counts and prices are integers.
    [requests.get] always yields a response: connection errors are
    outside the model.  So is the interpreter's cap on the decimal length
    of an integer turned into text (lines 73 and 119): integers print at
    any size.  A statement about the exception a call ends in speaks of
    the exceptions of [exn]; none says that they are the only ones the
    program can meet.

    The two HTTP endpoints are oracles; every effect of the program
    (requests, sleeps, console lines) is appended to a trace.

    The [while] loop of [fetch_game_ids_from_api] can run for ever; its
    model takes a fuel argument, and [None] means the fuel ran out, never
    a Python result.

    The recursion of [fetch_game_details] (line 79) cannot: the
    interpreter's call stack is finite.  Its model takes the number of
    nested calls the stack still has room for, [depth], and a call made
    with no room left ends in RecursionError, which nothing in the
    program catches.  The room left depends on the interpreter's
    recursion limit and on the frames already in use, the library's own
    included, so it is a parameter, not a constant. *)

From Stdlib Require Import List ZArith String Ascii Bool Lia.
Import ListNotations.
Local Open Scope string_scope.
Local Open Scope list_scope.

(** ** Python values *)

#[warnings="-register-all"]
Inductive pyval : Type :=
| PNone
| PBool (b : bool)
| PInt (n : Z)
| PStr (s : string)
| PList (xs : list pyval)
| PDict (kvs : list (string * pyval)).

Definition dict : Type := list (string * pyval).

(** Exceptions the model follows: those met inside the [try] blocks and
    loops, and the one the retry recursion ends in. *)
Inductive exn : Type :=
| JSONDecodeError
| AttributeError
| TypeError
| KeyError
| RecursionError.

Inductive res (A : Type) : Type :=
| Ok (a : A)
| Raise (e : exn).
Arguments Ok {A} a.
Arguments Raise {A} e.

Definition bind {A B : Type} (c : res A) (k : A -> res B) : res B :=
  match c with
  | Ok a => k a
  | Raise e => Raise e
  end.

Declare Scope py_scope.
Delimit Scope py_scope with py.
Notation "x <- c ;; k" := (bind c (fun x => k))
  (at level 100, c at next level, right associativity) : py_scope.
Local Open Scope py_scope.

Fixpoint mapM {A B : Type} (f : A -> res B) (xs : list A) : res (list B) :=
  match xs with
  | [] => Ok []
  | x :: xs' =>
      y <- f x ;;
      ys <- mapM f xs' ;;
      Ok (y :: ys)
  end.

(** ** Dictionaries *)

Fixpoint dict_lookup (k : string) (d : dict) : option pyval :=
  match d with
  | [] => None
  | (k', v) :: d' => if String.eqb k k' then Some v else dict_lookup k d'
  end.

(** [d.get(k, default)] *)
Definition dict_get (d : dict) (k : string) (default : pyval) : pyval :=
  match dict_lookup k d with
  | Some v => v
  | None => default
  end.

(** [d[k]] *)
Definition dict_getitem (d : dict) (k : string) : res pyval :=
  match dict_lookup k d with
  | Some v => Ok v
  | None => Raise KeyError
  end.

(** [d[k] = v]: an existing key keeps its position, a new one goes last. *)
Fixpoint dict_set (d : dict) (k : string) (v : pyval) : dict :=
  match d with
  | [] => [(k, v)]
  | (k', v') :: d' =>
      if String.eqb k k' then (k', v) :: d' else (k', v') :: dict_set d' k v
  end.

(** [d.update(other)] *)
Definition dict_update (d other : dict) : dict :=
  fold_left (fun acc kv => dict_set acc (fst kv) (snd kv)) other d.

Definition keys (d : dict) : list string := map fst d.

(** ** Operations on values, with the exceptions Python raises *)

(** [bool(v)] *)
Definition truthy (v : pyval) : bool :=
  match v with
  | PNone => false
  | PBool b => b
  | PInt n => negb (n =? 0)%Z
  | PStr s => negb (String.eqb s "")
  | PList xs => match xs with [] => false | _ => true end
  | PDict kvs => match kvs with [] => false | _ => true end
  end.

Definition int_of_bool (b : bool) : Z := if b then 1%Z else 0%Z.

(** [a == b].  Booleans are integers; dictionaries compare regardless of
    insertion order. *)
Fixpoint py_eq (a b : pyval) : bool :=
  match a, b with
  | PNone, PNone => true
  | PBool x, PBool y => Bool.eqb x y
  | PBool x, PInt n => (int_of_bool x =? n)%Z
  | PInt m, PBool y => (m =? int_of_bool y)%Z
  | PInt m, PInt n => (m =? n)%Z
  | PStr s, PStr t => String.eqb s t
  | PList xs, PList ys =>
      (fix all2 (xs ys : list pyval) : bool :=
         match xs, ys with
         | [], [] => true
         | x :: xs', y :: ys' => py_eq x y && all2 xs' ys'
         | _, _ => false
         end) xs ys
  | PDict d1, PDict d2 =>
      Nat.eqb (List.length d1) (List.length d2) &&
      (fix sub (d : list (string * pyval)) : bool :=
         match d with
         | [] => true
         | (k, v) :: d' =>
             match dict_lookup k d2 with
             | Some v' => py_eq v v' && sub d'
             | None => false
             end
         end) d1
  | _, _ => false
  end.

(** [v.get(k, default)]: only dictionaries have the method. *)
Definition py_get (v : pyval) (k : string) (default : pyval) : res pyval :=
  match v with
  | PDict d => Ok (dict_get d k default)
  | _ => Raise AttributeError
  end.

(** [v[k]] with a string subscript. *)
Definition py_getitem (v : pyval) (k : string) : res pyval :=
  match v with
  | PDict d => dict_getitem d k
  | _ => Raise TypeError
  end.

Definition chars (s : string) : list pyval :=
  map (fun c => PStr (String c EmptyString)) (list_ascii_of_string s).

(** [for x in v]: lists give their items, strings their characters,
    dictionaries their keys; nothing else is iterable. *)
Definition py_iter (v : pyval) : res (list pyval) :=
  match v with
  | PList xs => Ok xs
  | PStr s => Ok (chars s)
  | PDict d => Ok (map (fun kv => PStr (fst kv)) d)
  | _ => Raise TypeError
  end.

(** [k in v] for a string [k]: key test on a dictionary, item test on a
    list, substring test on a string. *)
Definition py_contains (k : string) (v : pyval) : res bool :=
  match v with
  | PDict d => Ok (match dict_lookup k d with Some _ => true | None => false end)
  | PList xs => Ok (existsb (fun x => py_eq (PStr k) x) xs)
  | PStr s => Ok (match String.index 0 k s with Some _ => true | None => false end)
  | _ => Raise TypeError
  end.

(** [xs[:m]] for any integer [m]. *)
Definition py_take {A : Type} (m : Z) (xs : list A) : list A :=
  if (0 <=? m)%Z then firstn (Z.to_nat m) xs
  else firstn (List.length xs - Z.to_nat (- m)) xs.

(** [xs[i:j]] for non-negative [i], [j]. *)
Definition py_slice {A : Type} (xs : list A) (i j : nat) : list A :=
  firstn (j - i) (skipn i xs).

(** [range(start, stop, step)] for a positive step. *)
Fixpoint range_from (fuel start stop step : nat) : list nat :=
  match fuel with
  | O => []
  | S fuel' =>
      if (start <? stop)%nat then start :: range_from fuel' (start + step) stop step
      else []
  end.

Definition py_range (start stop step : nat) : list nat :=
  range_from stop start stop step.

(** ** The remote service and the effects of the program *)

(** What the program reads from a [requests] response: [status_code] and
    [json()]; [None] stands for a body on which [json()] raises. *)
Record response : Type := mkResponse {
  status_code : Z;
  json_body : option pyval
}.

Inductive message : Type :=
| FailedToFetch (status : Z)
| NoMorePages
| ErrorParsing (e : exn)
| TotalCollected (n : nat)
| RateLimitHit
| FailedForIds (universe_ids : list pyval) (status : Z)
| FetchingIds (batch_ids : list pyval).

Inductive event : Type :=
| GetSorts (session_id : string) (sorts_page_token : option pyval)
| GetDetails (universe_ids : list pyval)
| Sleep (seconds : nat)
| Print (msg : message).

Definition trace : Type := list event.

Definition is_get_sorts (e : event) : bool :=
  match e with GetSorts _ _ => true | _ => false end.

Definition is_get_details (e : event) : bool :=
  match e with GetDetails _ => true | _ => false end.

(** Number of requests already sent to each endpoint. *)
Definition sorts_calls (t : trace) : nat := List.length (filter is_get_sorts t).
Definition details_calls (t : trace) : nat := List.length (filter is_get_details t).

(** The batches sent to the detail endpoint, oldest first. *)
Definition details_requests (t : trace) : list (list pyval) :=
  flat_map (fun e => match e with GetDetails ids => [ids] | _ => [] end) t.

(** The batches announced by [scrape_games], oldest first. *)
Definition batches_fetched (t : trace) : list (list pyval) :=
  flat_map (fun e => match e with Print (FetchingIds ids) => [ids] | _ => [] end) t.

(** An endpoint answers the n-th request it receives (counting from 0)
    according to the request's parameters. *)
Record remote : Type := mkRemote {
  sorts_api : nat -> string -> option pyval -> response;
  details_api : nat -> list pyval -> response
}.

(** What [fetch_game_details] hands back: a list, or [None] when the
    function body ends without a [return]. *)
Inductive retval : Type :=
| RList (records : list dict)
| RNone.

Section Scraper.

Variable self : remote.

(** ** fetch_game_details *)

(** One entry of the list comprehension (lines 89-102). *)
Definition detail_record (game : pyval) : res dict :=
  uid <- py_get game "id" PNone ;;
  name <- py_get game "name" (PStr "N/A") ;;
  genre <- py_get game "genre" (PStr "N/A") ;;
  created <- py_get game "created" (PStr "N/A") ;;
  updated <- py_get game "updated" (PStr "N/A") ;;
  max_players <- py_get game "maxPlayers" (PStr "N/A") ;;
  playability <- py_get game "playabilityStatus" (PStr "N/A") ;;
  experimental <- py_get game "isExperimental" (PBool false) ;;
  price <- py_get game "price" (PInt 0) ;;
  visits <- py_get game "visits" (PInt 0) ;;
  creator <- py_get game "creator" (PDict []) ;;
  developer <- py_get creator "name" (PStr "N/A") ;;
  thumbnail <- py_get game "thumbnailUrl" (PStr "N/A") ;;
  Ok [ ("UniverseId", uid);
       ("Name", name);
       ("Genre", genre);
       ("Created Date", created);
       ("Updated Date", updated);
       ("Max Players", max_players);
       ("Playability Status", playability);
       ("Is Experimental", experimental);
       ("Price", price);
       ("Visits", visits);
       ("Developer", developer);
       ("Thumbnail URL", thumbnail) ].

(** The body of the [try] (lines 86-104); a [Raise] is what the
    [except Exception] clause catches. *)
Definition details_try (r : response) : res retval :=
  data <- match json_body r with
          | Some data => Ok data
          | None => Raise JSONDecodeError
          end ;;
  has_data <- py_contains "data" data ;;
  if has_data : bool then
    entries <- py_getitem data "data" ;;
    games <- py_iter entries ;;
    records <- mapM detail_record games ;;
    Ok (RList records)
  else Ok RNone.

(** [depth] is the number of nested calls of the function the call
    stack has room for; the call of line 79 made with none left raises
    RecursionError, outside any [try]. *)
Fixpoint fetch_game_details (depth : nat) (universe_ids : list pyval) (t : trace)
  : res retval * trace :=
  match depth with
  | O => (Raise RecursionError, t)
  | S depth' =>
      let r := details_api self (details_calls t) universe_ids in
      let t := t ++ [GetDetails universe_ids] in
      if (status_code r =? 429)%Z then
        fetch_game_details depth' universe_ids (t ++ [Print RateLimitHit; Sleep 5])
      else if negb (status_code r =? 200)%Z then
        (Ok (RList []), t ++ [Print (FailedForIds universe_ids (status_code r))])
      else
        match details_try r with
        | Ok v => (Ok v, t)
        | Raise e => (Ok (RList []), t ++ [Print (ErrorParsing e)])
        end
  end.

(** ** scrape_games *)

Definition batch_size : nat := 50.

(** Lines 123-131: the scan of [game_data] for one [detail].  [Some] is
    the updated [detail] that gets appended, [None] a scan without match. *)
Fixpoint merge_detail (game_data : list dict) (detail : dict) : res (option dict) :=
  match game_data with
  | [] => Ok None
  | basic :: rest =>
      b <- dict_getitem basic "UniverseId" ;;
      d <- dict_getitem detail "UniverseId" ;;
      if py_eq b d then
        Ok (Some (dict_update detail
                    [ ("PlayerCount", dict_get basic "PlayerCount" (PInt 0));
                      ("Upvotes", dict_get basic "Upvotes" (PInt 0));
                      ("Downvotes", dict_get basic "Downvotes" (PInt 0)) ]))
      else merge_detail rest detail
  end.

(** Lines 122-131: the loop over [batch_data], appending to [games_data]. *)
Fixpoint merge_batch (game_data batch_data games_data : list dict) : res (list dict) :=
  match batch_data with
  | [] => Ok games_data
  | detail :: rest =>
      m <- merge_detail game_data detail ;;
      merge_batch game_data rest
        (match m with
         | Some merged => games_data ++ [merged]
         | None => games_data
         end)
  end.

(** [for detail in batch_data]: [None] is not iterable. *)
Definition iter_retval (v : retval) : res (list dict) :=
  match v with
  | RList records => Ok records
  | RNone => Raise TypeError
  end.

(** Lines 117-132, one iteration per start index [i].  An exception of
    [fetch_game_details] is not caught. *)
Fixpoint scrape_loop (depth : nat) (game_data : list dict) (universe_ids : list pyval)
    (starts : list nat) (games_data : list dict) (t : trace)
  : res (list dict) * trace :=
  match starts with
  | [] => (Ok games_data, t)
  | i :: starts' =>
      let batch_ids := py_slice universe_ids i (i + batch_size) in
      let t := t ++ [Print (FetchingIds batch_ids)] in
      match fetch_game_details depth batch_ids t with
      | (Raise e, t) => (Raise e, t)
      | (Ok batch_data, t) =>
          match (details <- iter_retval batch_data ;;
                 merge_batch game_data details games_data) with
          | Raise e => (Raise e, t)
          | Ok games_data =>
              scrape_loop depth game_data universe_ids starts' games_data (t ++ [Sleep 1])
          end
      end
  end.

(** [depth] is the room each call of [fetch_game_details] starts with:
    the calls are made from the same frame. *)
Definition scrape_games (depth : nat) (game_data : list dict) (t : trace)
  : res (list dict) * trace :=
  match mapM (fun game => dict_getitem game "UniverseId") game_data with
  | Raise e => (Raise e, t)
  | Ok universe_ids =>
      scrape_loop depth game_data universe_ids
        (py_range 0 (List.length universe_ids) batch_size) [] t
  end.

(** ** fetch_game_ids_from_api *)

(** Lines 45-51. *)
Definition basic_record (game : pyval) : res dict :=
  uid <- py_get game "universeId" PNone ;;
  name <- py_get game "name" (PStr "N/A") ;;
  player_count <- py_get game "playerCount" (PInt 0) ;;
  upvotes <- py_get game "totalUpVotes" (PInt 0) ;;
  downvotes <- py_get game "totalDownVotes" (PInt 0) ;;
  Ok [ ("UniverseId", uid);
       ("Name", name);
       ("PlayerCount", player_count);
       ("Upvotes", upvotes);
       ("Downvotes", downvotes) ].

(** Lines 44-53.  [all_game_data] is extended in place, so what was
    appended before an exception stays appended. *)
Fixpoint games_loop (games : list pyval) (all_game_data : list dict)
  : list dict * res unit :=
  match games with
  | [] => (all_game_data, Ok tt)
  | game :: games' =>
      match (game_data <- basic_record game ;;
             uid <- dict_getitem game_data "UniverseId" ;;
             Ok (game_data, uid)) with
      | Raise e => (all_game_data, Raise e)
      | Ok (game_data, uid) =>
          games_loop games'
            (if truthy uid then all_game_data ++ [game_data] else all_game_data)
      end
  end.

(** Lines 42-53. *)
Fixpoint sorts_loop (sorts : list pyval) (all_game_data : list dict)
  : list dict * res unit :=
  match sorts with
  | [] => (all_game_data, Ok tt)
  | sort :: sorts' =>
      match (games <- py_get sort "games" (PList []) ;; py_iter games) with
      | Raise e => (all_game_data, Raise e)
      | Ok games =>
          match games_loop games all_game_data with
          | (all_game_data, Raise e) => (all_game_data, Raise e)
          | (all_game_data, Ok _) => sorts_loop sorts' all_game_data
          end
      end
  end.

(** Lines 41-56 for a decoded body: the extended list and the next
    page token, or the exception that ended the page. *)
Definition collect_page (data : pyval) (all_game_data : list dict)
  : list dict * res pyval :=
  match (sorts <- py_get data "sorts" (PList []) ;; py_iter sorts) with
  | Raise e => (all_game_data, Raise e)
  | Ok sorts =>
      match sorts_loop sorts all_game_data with
      | (all_game_data, Raise e) => (all_game_data, Raise e)
      | (all_game_data, Ok _) =>
          (all_game_data, py_get data "nextSortsPageToken" PNone)
      end
  end.

(** Lines 21-65, one iteration per unit of fuel. *)
Fixpoint pages_loop (fuel : nat) (session_id : string) (max_games : Z)
    (all_game_data : list dict) (sorts_page_token : pyval) (t : trace)
  : option (list dict * trace) :=
  match fuel with
  | O => None
  | S fuel' =>
      if (Z.of_nat (List.length all_game_data) <? max_games)%Z then
        let token := if truthy sorts_page_token then Some sorts_page_token else None in
        let r := sorts_api self (sorts_calls t) session_id token in
        let t := t ++ [GetSorts session_id token] in
        if negb (status_code r =? 200)%Z then
          Some (all_game_data, t ++ [Print (FailedToFetch (status_code r))])
        else
          match json_body r with
          | None => Some (all_game_data, t ++ [Print (ErrorParsing JSONDecodeError)])
          | Some data =>
              match collect_page data all_game_data with
              | (all_game_data, Raise e) =>
                  Some (all_game_data, t ++ [Print (ErrorParsing e)])
              | (all_game_data, Ok next) =>
                  if truthy next then
                    pages_loop fuel' session_id max_games all_game_data next
                      (t ++ [Print (TotalCollected (List.length all_game_data)); Sleep 1])
                  else Some (all_game_data, t ++ [Print NoMorePages])
              end
          end
      else Some (all_game_data, t)
  end.

Definition fetch_game_ids_from_api (fuel : nat) (session_id : string) (max_games : Z)
    (t : trace) : option (list dict * trace) :=
  match pages_loop fuel session_id max_games [] PNone t with
  | None => None
  | Some (all_game_data, t) => Some (py_take max_games all_game_data, t)
  end.

End Scraper.

(** ** Vocabulary of the specification *)

(** The identifier of a listed item, [None] when the field is absent. *)
Definition identifier (g : dict) : pyval := dict_get g "universeId" PNone.

(** The BasicRecord of a listed item, defaults applied. *)
Definition basic_of (g : dict) : dict :=
  [ ("UniverseId", dict_get g "universeId" PNone);
    ("Name", dict_get g "name" (PStr "N/A"));
    ("PlayerCount", dict_get g "playerCount" (PInt 0));
    ("Upvotes", dict_get g "totalUpVotes" (PInt 0));
    ("Downvotes", dict_get g "totalDownVotes" (PInt 0)) ].

(** The items found under key [k] of [v]; nothing when [v] has no such
    iterable member. *)
Definition members (v : pyval) (k : string) : list pyval :=
  match (xs <- py_get v k (PList []) ;; py_iter xs) with
  | Ok xs => xs
  | Raise _ => []
  end.

(** Every item of every sort group of a listing payload, in order. *)
Definition listed_games (data : pyval) : list pyval :=
  flat_map (fun sort => members sort "games") (members data "sorts").

(** A record that [fetch_game_ids_from_api] keeps: the BasicRecord of a
    listed item whose identifier is truthy. *)
Definition kept_from (games : list pyval) (r : dict) : Prop :=
  exists g, In (PDict g) games /\ r = basic_of g /\ truthy (identifier g) = true.

(** The same, without naming the page the item came from. *)
Definition kept (r : dict) : Prop :=
  exists g, r = basic_of g /\ truthy (identifier g) = true.

(** A response after which [fetch_game_ids_from_api] asks for no further
    page: a failure status, an undecodable or ill-shaped body, or no next
    page token. *)
Definition last_page (r : response) : bool :=
  negb (status_code r =? 200)%Z ||
  match json_body r with
  | None => true
  | Some data =>
      match snd (collect_page data []) with
      | Raise _ => true
      | Ok next => negb (truthy next)
      end
  end.


(** Field names of a DetailRecord, in column order. *)
Definition detail_keys : list string :=
  [ "UniverseId"; "Name"; "Genre"; "Created Date"; "Updated Date";
    "Max Players"; "Playability Status"; "Is Experimental"; "Price";
    "Visits"; "Developer"; "Thumbnail URL" ].

(** [basic] is a match for [detail]: the test of line 124. *)
Definition matches (detail basic : dict) : bool :=
  match dict_lookup "UniverseId" basic, dict_lookup "UniverseId" detail with
  | Some b, Some d => py_eq b d
  | _, _ => false
  end.

(** The MergedRecord: the DetailRecord followed by the three fields
    copied from the BasicRecord. *)
Definition merged_record (detail basic : dict) : dict :=
  detail ++
  [ ("PlayerCount", dict_get basic "PlayerCount" (PInt 0));
    ("Upvotes", dict_get basic "Upvotes" (PInt 0));
    ("Downvotes", dict_get basic "Downvotes" (PInt 0)) ].

(** The records one detail batch contributes: each detail joined with
    the first basic record that matches it, details without a match left
    out, in the order of the batch. *)
Definition merged_batch (game_data batch_data : list dict) : list dict :=
  flat_map (fun detail =>
              match find (matches detail) game_data with
              | Some basic => [merged_record detail basic]
              | None => []
              end) batch_data.

(** Consecutive batches of [size] ids. *)
Definition batches (size : nat) (universe_ids : list pyval) : list (list pyval) :=
  map (fun i => py_slice universe_ids i (i + size))
      (py_range 0 (List.length universe_ids) size).

(** A run of the batch loop of [scrape_games] in which every call of
    [fetch_game_details] returned a list: the batches asked for, the
    lists obtained for them, and the trace before and after. *)
Inductive fetched (self : remote) (depth : nat)
  : list (list pyval) -> trace -> list (list dict) -> trace -> Prop :=
| fetched_nil (t : trace) : fetched self depth [] t [] t
| fetched_cons (batch_ids : list pyval) (rest : list (list pyval)) (t t1 t2 : trace)
    (batch_data : list dict) (others : list (list dict)) :
    fetch_game_details self depth batch_ids (t ++ [Print (FetchingIds batch_ids)])
      = (Ok (RList batch_data), t1) ->
    fetched self depth rest (t1 ++ [Sleep 1]) others t2 ->
    fetched self depth (batch_ids :: rest) t (batch_data :: others) t2.

(** ** Test doubles *)

Module Mock.

Definition ok (body : pyval) : response := mkResponse 200 (Some body).
Definition status (code : Z) : response := mkResponse code None.

Definition game (uid : Z) (name : string) : pyval :=
  PDict [("id", PInt uid); ("name", PStr name)].

Definition listed (uid : Z) (name : string) (players : Z) : pyval :=
  PDict [("universeId", PInt uid); ("name", PStr name); ("playerCount", PInt players)].

Definition page (games : list pyval) (next : option string) : pyval :=
  PDict ([("sorts", PList [PDict [("games", PList games)]])] ++
         match next with
         | Some token => [("nextSortsPageToken", PStr token)]
         | None => []
         end).

(** A detail endpoint that answers 429 to its first two requests and
    then 200 with [payload]. *)
Definition rate_limited_twice (payload : pyval) : remote :=
  mkRemote (fun _ _ _ => status 500)
           (fun n _ => if (n <? 2)%nat then status 429 else ok payload).

(** A detail endpoint that always answers 200 with [payload]. *)
Definition details_always (payload : pyval) : remote :=
  mkRemote (fun _ _ _ => status 500) (fun _ _ => ok payload).


(** A listing endpoint that serves [pages] in turn, then 500. *)
Definition listing (pages : list pyval) : remote :=
  mkRemote (fun n _ _ => match nth_error pages n with
                         | Some body => ok body
                         | None => status 500
                         end)
           (fun _ _ => status 500).

(** A detail endpoint that echoes every requested id as a bare entry. *)
Definition echo : remote :=
  mkRemote (fun _ _ _ => status 500)
           (fun _ ids => ok (PDict [("data", PList (map (fun i => PDict [("id", i)]) ids))])).

(** A listed item whose identifier is the integer 0. *)
Definition zero_item : dict := [("universeId", PInt 0); ("name", PStr "Zero")].

(** A detail endpoint that answers with the entries for ids 2 and 1, in
    that order. *)
Definition two_then_one : remote :=
  details_always (PDict [("data", PList [game 2 "Two"; game 1 "One"])]).

Definition basic (uid players : Z) : dict :=
  [ ("UniverseId", PInt uid); ("Name", PStr "N/A"); ("PlayerCount", PInt players);
    ("Upvotes", PInt 0); ("Downvotes", PInt 0) ].

(** The DetailRecord of [game 1 "One"]. *)
Definition detail_one : dict :=
  [ ("UniverseId", PInt 1); ("Name", PStr "One");
    ("Genre", PStr "N/A"); ("Created Date", PStr "N/A");
    ("Updated Date", PStr "N/A"); ("Max Players", PStr "N/A");
    ("Playability Status", PStr "N/A");
    ("Is Experimental", PBool false); ("Price", PInt 0);
    ("Visits", PInt 0); ("Developer", PStr "N/A");
    ("Thumbnail URL", PStr "N/A") ].

(** Basic records with ids 1 to 120. *)
Definition basics120 : list dict :=
  map (fun i => basic (Z.of_nat i) 0) (seq 1 120).

End Mock.

(** ** The program entry point *)

(** Line 148. *)
Definition session_id : string := "4c77f6d0-a42c-4b37-9ca2-42ce3ca0800f".

(** Lines 145-154: the listing, then the details.  The value is what
    line 157 hands to [save_to_csv]; the writer itself is the table
    library and is not part of the model.  [fuel] is for the page loop,
    [depth] the room the retry recursion has. *)
Definition main (scraper : remote) (fuel depth : nat) (t : trace)
  : option (res (list dict) * trace) :=
  match fetch_game_ids_from_api scraper fuel session_id 60000 t with
  | None => None
  | Some (basic_game_data, t) => Some (scrape_games scraper depth basic_game_data t)
  end.

(** ** Further vocabulary *)

(** The listing requests of a trace, oldest first. *)
Definition sorts_requests (t : trace) : list (string * option pyval) :=
  flat_map (fun e => match e with GetSorts s token => [(s, token)] | _ => [] end) t.

(** Seconds slept in a trace. *)
Definition slept (t : trace) : nat :=
  list_sum (map (fun e => match e with Sleep n => n | _ => 0%nat end) t).

(** Field names of a BasicRecord, in order. *)
Definition basic_keys : list string :=
  ["UniverseId"; "Name"; "PlayerCount"; "Upvotes"; "Downvotes"].

(** The records a listing response contributes. *)
Definition page_records (r : response) : list dict :=
  if (status_code r =? 200)%Z then
    match json_body r with
    | Some data => fst (collect_page data [])
    | None => []
    end
  else [].

(** The page token a listing response hands on, when it has one that
    makes the loop go on. *)
Definition next_token (r : response) : option pyval :=
  if (status_code r =? 200)%Z then
    match json_body r with
    | Some data =>
        match snd (collect_page data []) with
        | Ok next => if truthy next then Some next else None
        | Raise _ => None
        end
    | None => None
    end
  else None.

(** A run of the page loop from request number [c]: the tokens of the
    requests sent, and the records their responses contributed.  Every
    request but the last was answered with a token, and that token is the
    one the following request carries. *)
Inductive paged (self : remote) (session : string)
  : nat -> option pyval -> list (option pyval) -> list dict -> Prop :=
| paged_last (c : nat) (token : option pyval) :
    paged self session c token [token]
      (page_records (sorts_api self c session token))
| paged_next (c : nat) (token : option pyval) (next : pyval)
    (tokens : list (option pyval)) (records : list dict) :
    next_token (sorts_api self c session token) = Some next ->
    paged self session (S c) (Some next) tokens records ->
    paged self session c token (token :: tokens)
      (page_records (sorts_api self c session token) ++ records).

(** An entry of the detail payload that the mapping accepts: an object
    whose ["creator"], when present, is an object. *)
Definition entry_ok (game : pyval) : bool :=
  match game with
  | PDict g =>
      match dict_lookup "creator" g with
      | None | Some (PDict _) => true
      | Some _ => false
      end
  | _ => false
  end.

(** The developer name of an accepted entry. *)
Definition developer_of (g : dict) : pyval :=
  match dict_lookup "creator" g with
  | Some (PDict creator) => dict_get creator "name" (PStr "N/A")
  | _ => PStr "N/A"
  end.

(** The DetailRecord of an accepted entry, defaults applied. *)
Definition detail_of (game : pyval) : dict :=
  match game with
  | PDict g =>
      [ ("UniverseId", dict_get g "id" PNone);
        ("Name", dict_get g "name" (PStr "N/A"));
        ("Genre", dict_get g "genre" (PStr "N/A"));
        ("Created Date", dict_get g "created" (PStr "N/A"));
        ("Updated Date", dict_get g "updated" (PStr "N/A"));
        ("Max Players", dict_get g "maxPlayers" (PStr "N/A"));
        ("Playability Status", dict_get g "playabilityStatus" (PStr "N/A"));
        ("Is Experimental", dict_get g "isExperimental" (PBool false));
        ("Price", dict_get g "price" (PInt 0));
        ("Visits", dict_get g "visits" (PInt 0));
        ("Developer", developer_of g);
        ("Thumbnail URL", dict_get g "thumbnailUrl" (PStr "N/A")) ]
  | _ => []
  end.

(** More test doubles. *)
Module Cases.

(** A listing endpoint that serves the page for the token it is sent:
    page "a" first, then "b" after token "t1", then nothing more. *)
Definition by_token : remote :=
  mkRemote
    (fun _ _ token =>
       match token with
       | None => Mock.ok (Mock.page [Mock.listed 1 "A" 5] (Some "t1"))
       | Some (PStr "t1") => Mock.ok (Mock.page [Mock.listed 2 "B" 6] None)
       | Some _ => Mock.status 400
       end)
    (fun _ ids => Mock.ok (PDict [("data", PList (map (fun i => PDict [("id", i)]) ids))])).

(** A listing endpoint with one item on every page and always a token. *)
Definition endless : remote :=
  mkRemote (fun n _ _ => Mock.ok (Mock.page [Mock.listed (Z.of_nat (S n)) "G" 1] (Some "more")))
           (fun _ _ => Mock.status 500).

(** A basic record without its identifier. *)
Definition nameless : dict := [("Name", PStr "N/A"); ("PlayerCount", PInt 3)].

(** A detail record that already holds a player count. *)
Definition counted : dict :=
  [("UniverseId", PInt 1); ("PlayerCount", PInt 0); ("Name", PStr "One")].

End Cases.

(** * Properties *)

(** ** Counting requests in a trace *)


Lemma sorts_calls_app (t u : trace) :
  sorts_calls (t ++ u) = (sorts_calls t + sorts_calls u)%nat.
Proof.
  unfold sorts_calls. now rewrite filter_app, length_app.
Qed.

Lemma details_requests_app (t u : trace) :
  details_requests (t ++ u) = details_requests t ++ details_requests u.
Proof. unfold details_requests. apply flat_map_app. Qed.

Lemma batches_fetched_app (t u : trace) :
  batches_fetched (t ++ u) = batches_fetched t ++ batches_fetched u.
Proof. unfold batches_fetched. apply flat_map_app. Qed.

Lemma slept_app (t u : trace) : slept (t ++ u) = (slept t + slept u)%nat.
Proof. unfold slept. now rewrite map_app, list_sum_app. Qed.

(** ** fetch_game_details: what one attempt does *)


(** Any status other than 200 and 429 gives the empty list. *)
Lemma fetch_game_details_failed (self : remote) (depth : nat) (ids : list pyval) (t : trace) :
  let r := details_api self (details_calls t) ids in
  status_code r <> 429%Z ->
  status_code r <> 200%Z ->
  fetch_game_details self (S depth) ids t =
  (Ok (RList []), t ++ [GetDetails ids; Print (FailedForIds ids (status_code r))]).
Proof.
  intros r H429 H200. cbn [fetch_game_details]. fold r.
  apply Z.eqb_neq in H429, H200. rewrite H429, H200. cbn.
  now rewrite <- app_assoc.
Qed.

(** An exception inside the [try] gives the empty list. *)
Lemma fetch_game_details_parse_error (self : remote) (depth : nat) (ids : list pyval)
    (t : trace) (e : exn) :
  let r := details_api self (details_calls t) ids in
  status_code r = 200%Z ->
  details_try r = Raise e ->
  fetch_game_details self (S depth) ids t =
  (Ok (RList []), t ++ [GetDetails ids; Print (ErrorParsing e)]).
Proof.
  intros r H200 Htry. cbn [fetch_game_details]. fold r.
  rewrite H200, Htry. cbn. now rewrite <- app_assoc.
Qed.

(** A 200 response whose [try] body finishes gives what the body gives. *)
Lemma fetch_game_details_ok (self : remote) (depth : nat) (ids : list pyval)
    (t : trace) (v : retval) :
  let r := details_api self (details_calls t) ids in
  status_code r = 200%Z ->
  details_try r = Ok v ->
  fetch_game_details self (S depth) ids t = (Ok v, t ++ [GetDetails ids]).
Proof.
  intros r H200 Htry. cbn [fetch_game_details]. fold r.
  now rewrite H200, Htry.
Qed.

(** Of the exceptions the model follows, a call can end only in that of
    the exhausted stack. *)
Lemma fetch_game_details_raises (self : remote) (ids : list pyval) :
  forall depth t e t',
    fetch_game_details self depth ids t = (Raise e, t') -> e = RecursionError.
Proof.
  induction depth as [|depth IH]; intros t e t' H.
  - now injection H as <- _.
  - cbn [fetch_game_details] in H.
    destruct (status_code _ =? 429)%Z; [now apply IH in H|].
    destruct (negb _); [discriminate|].
    destruct (details_try _); discriminate.
Qed.


(** ** How the retry ends (C8) *)







(** ** Retrying until the answer is not 429 (C2) *)




(** ** A 200 body without a ["data"] member (C1) *)

(** The parts of C1 that hold are [fetch_game_details_failed] and
    [fetch_game_details_parse_error] above. *)

(** C1: a 200 response whose body decodes to an object without the
    ["data"] member is not of the expected shape, yet [fetch_game_details]
    hands back [None] for it instead of an empty list: the [if] on line 87
    has no [else], the [try] ends without raising, and the function falls
    off its end. *)
Theorem fetch_game_details_no_data_member_returns_None :
  forall (self : remote) (depth : nat) (ids : list pyval) (t : trace) (d : dict),
    let r := details_api self (details_calls t) ids in
    status_code r = 200%Z ->
    json_body r = Some (PDict d) ->
    dict_lookup "data" d = None ->
    fetch_game_details self (S depth) ids t = (Ok RNone, t ++ [GetDetails ids]).
Proof.
  intros self depth ids t d r H200 Hbody Hd.
  apply fetch_game_details_ok; [exact H200|].
  fold r. unfold details_try. rewrite Hbody. cbn. now rewrite Hd.
Qed.

Lemma fetch_game_details_no_data_member_returns_None_witness :
  fetch_game_details (Mock.details_always (PDict [("errors", PList [])])) 1
    [PInt 1; PInt 2] [] = (Ok RNone, [GetDetails [PInt 1; PInt 2]]).
Proof.
  apply (fetch_game_details_no_data_member_returns_None
           (Mock.details_always (PDict [("errors", PList [])])) 0 [PInt 1; PInt 2] []
           [("errors", PList [])]); reflexivity.
Defined.

(** The [None] then breaks the caller: [for detail in batch_data] raises
    [TypeError] and [scrape_games] does not complete. *)
Example scrape_games_raises_after_None :
  scrape_games (Mock.details_always (PDict [("errors", PList [])])) 1
    [Mock.basic 1 10; Mock.basic 2 20] [] =
  (Raise TypeError,
   [Print (FetchingIds [PInt 1; PInt 2]); GetDetails [PInt 1; PInt 2]]).
Proof. reflexivity. Qed.

(** ** fetch_game_ids_from_api: one page *)

Lemma basic_record_dict (g : dict) : basic_record (PDict g) = Ok (basic_of g).
Proof. reflexivity. Qed.

Lemma basic_record_inv (game : pyval) (r : dict) :
  basic_record game = Ok r -> exists g, game = PDict g /\ r = basic_of g.
Proof.
  destruct game; try discriminate.
  rewrite basic_record_dict. intros [= <-]. eauto.
Qed.

Lemma basic_of_identifier (g : dict) :
  dict_lookup "UniverseId" (basic_of g) = Some (identifier g).
Proof. reflexivity. Qed.

Lemma kept_from_incl (games games' : list pyval) (r : dict) :
  incl games games' -> kept_from games r -> kept_from games' r.
Proof. intros Hincl (g & Hin & Hr & Ht). exists g. auto. Qed.

Lemma games_loop_cons_dict (g : dict) (games : list pyval) (acc : list dict) :
  games_loop (PDict g :: games) acc =
  games_loop games (if truthy (identifier g) then acc ++ [basic_of g] else acc).
Proof. reflexivity. Qed.

Lemma games_loop_cons_raise (game : pyval) (games : list pyval) (acc : list dict) (e : exn) :
  basic_record game = Raise e ->
  games_loop (game :: games) acc = (acc, Raise e).
Proof. intros H. cbn [games_loop]. now rewrite H. Qed.

(** Whatever way the loop over the items ends, it has appended only
    records kept from these items. *)
Lemma games_loop_appends (games : list pyval) :
  forall acc acc' r,
    games_loop games acc = (acc', r) ->
    exists new, acc' = acc ++ new /\ Forall (kept_from games) new.
Proof.
  induction games as [|game games IH]; intros acc acc' r H.
  - injection H as <- _. exists []. now rewrite app_nil_r.
  - destruct (basic_record game) as [rec|e] eqn:Hrec.
    + apply basic_record_inv in Hrec as (g & -> & _).
      rewrite games_loop_cons_dict in H.
      apply IH in H as (new & -> & Hnew).
      assert (Hnew' : Forall (kept_from (PDict g :: games)) new).
      { eapply Forall_impl; [|exact Hnew].
        intros a. apply kept_from_incl. now apply incl_tl. }
      destruct (truthy (identifier g)) eqn:Ht.
      * exists (basic_of g :: new). rewrite <- app_assoc. split; [reflexivity|].
        constructor; [|exact Hnew'].
        exists g. repeat split; [now left | exact Ht].
      * exists new. auto.
    + rewrite (games_loop_cons_raise _ _ _ _ Hrec) in H.
      injection H as <- _. exists []. now rewrite app_nil_r.
Qed.

(** When the loop over the items finishes, the items were all objects and
    the loop appended the record of each one with a truthy identifier. *)
Lemma games_loop_finished (games : list pyval) :
  forall acc acc' u,
    games_loop games acc = (acc', Ok u) ->
    exists gs,
      games = map PDict gs /\
      acc' = acc ++ map basic_of (filter (fun g => truthy (identifier g)) gs).
Proof.
  induction games as [|game games IH]; intros acc acc' u H.
  - injection H as <-. exists []. now rewrite app_nil_r.
  - destruct (basic_record game) as [rec|e] eqn:Hrec.
    + apply basic_record_inv in Hrec as (g & -> & _).
      rewrite games_loop_cons_dict in H.
      apply IH in H as (gs & -> & ->).
      exists (g :: gs). split; [reflexivity|]. cbn [filter].
      destruct (truthy (identifier g)); [|reflexivity].
      now rewrite <- app_assoc.
    + rewrite (games_loop_cons_raise _ _ _ _ Hrec) in H. discriminate.
Qed.

Lemma members_games_ok (sort games : pyval) (xs : list pyval) :
  py_get sort "games" (PList []) = Ok games ->
  py_iter games = Ok xs ->
  members sort "games" = xs.
Proof. intros H1 H2. unfold members. rewrite H1. cbn. now rewrite H2. Qed.

Lemma sorts_loop_appends (sorts : list pyval) :
  forall acc acc' r,
    sorts_loop sorts acc = (acc', r) ->
    exists new,
      acc' = acc ++ new /\
      Forall (kept_from (flat_map (fun sort => members sort "games") sorts)) new.
Proof.
  induction sorts as [|sort sorts IH]; intros acc acc' r H; cbn in H.
  - injection H as <- _. exists []. now rewrite app_nil_r.
  - destruct (py_get sort "games" (PList [])) as [games|e] eqn:Hget; cbn in H.
    2:{ injection H as <- _. exists []. now rewrite app_nil_r. }
    destruct (py_iter games) as [xs|e] eqn:Hiter.
    2:{ injection H as <- _. exists []. now rewrite app_nil_r. }
    cbn [flat_map]. rewrite (members_games_ok _ _ _ Hget Hiter).
    destruct (games_loop xs acc) as [acc1 r1] eqn:Hloop.
    apply games_loop_appends in Hloop as (new1 & -> & Hnew1).
    assert (Hnew1' : forall rest, Forall (kept_from (xs ++ rest)) new1).
    { intros rest. eapply Forall_impl; [|exact Hnew1].
      intros a. apply kept_from_incl. now apply incl_appl. }
    destruct r1 as [u|e].
    + apply IH in H as (new2 & -> & Hnew2).
      exists (new1 ++ new2). rewrite app_assoc. split; [reflexivity|].
      apply Forall_app. split; [apply Hnew1'|].
      eapply Forall_impl; [|exact Hnew2].
      intros a. apply kept_from_incl. now apply incl_appr.
    + injection H as <- _. exists new1. auto.
Qed.

Lemma sorts_loop_finished (sorts : list pyval) :
  forall acc acc' u,
    sorts_loop sorts acc = (acc', Ok u) ->
    exists gs,
      flat_map (fun sort => members sort "games") sorts = map PDict gs /\
      acc' = acc ++ map basic_of (filter (fun g => truthy (identifier g)) gs).
Proof.
  induction sorts as [|sort sorts IH]; intros acc acc' u H; cbn in H.
  - injection H as <-. exists []. now rewrite app_nil_r.
  - destruct (py_get sort "games" (PList [])) as [games|e] eqn:Hget; cbn in H;
      [|discriminate].
    destruct (py_iter games) as [xs|e] eqn:Hiter; [|discriminate].
    cbn [flat_map]. rewrite (members_games_ok _ _ _ Hget Hiter).
    destruct (games_loop xs acc) as [acc1 [u1|e]] eqn:Hloop; [|discriminate].
    apply games_loop_finished in Hloop as (gs1 & -> & ->).
    apply IH in H as (gs2 & Hgs2 & ->).
    exists (gs1 ++ gs2). rewrite Hgs2, map_app, filter_app, map_app, app_assoc.
    split; reflexivity.
Qed.

Lemma members_sorts_ok (data sorts : pyval) (xs : list pyval) :
  py_get data "sorts" (PList []) = Ok sorts ->
  py_iter sorts = Ok xs ->
  listed_games data = flat_map (fun sort => members sort "games") xs.
Proof.
  intros H1 H2. unfold listed_games, members at 2. rewrite H1. cbn. now rewrite H2.
Qed.

Lemma collect_page_appends (data : pyval) (acc acc' : list dict) (r : res pyval) :
  collect_page data acc = (acc', r) ->
  exists new, acc' = acc ++ new /\ Forall (kept_from (listed_games data)) new.
Proof.
  unfold collect_page. intros H.
  destruct (py_get data "sorts" (PList [])) as [sorts|e] eqn:Hget; cbn in H.
  2:{ injection H as <- _. exists []. now rewrite app_nil_r. }
  destruct (py_iter sorts) as [xs|e] eqn:Hiter.
  2:{ injection H as <- _. exists []. now rewrite app_nil_r. }
  rewrite (members_sorts_ok _ _ _ Hget Hiter).
  destruct (sorts_loop xs acc) as [acc1 r1] eqn:Hloop.
  apply sorts_loop_appends in Hloop as (new & -> & Hnew).
  exists new. destruct r1; injection H as <- _; auto.
Qed.

Lemma collect_page_finished (data : pyval) (acc acc' : list dict) (next : pyval) :
  collect_page data acc = (acc', Ok next) ->
  exists gs,
    listed_games data = map PDict gs /\
    acc' = acc ++ map basic_of (filter (fun g => truthy (identifier g)) gs).
Proof.
  unfold collect_page. intros H.
  destruct (py_get data "sorts" (PList [])) as [sorts|e] eqn:Hget; cbn in H;
    [|discriminate].
  destruct (py_iter sorts) as [xs|e] eqn:Hiter; [|discriminate].
  rewrite (members_sorts_ok _ _ _ Hget Hiter).
  destruct (sorts_loop xs acc) as [acc1 [u|e]] eqn:Hloop; [|discriminate].
  apply sorts_loop_finished in Hloop as (gs & Hgs & ->).
  injection H as <- _. eauto.
Qed.

(** ** fetch_game_ids_from_api: all pages *)

Lemma kept_from_kept (games : list pyval) (r : dict) : kept_from games r -> kept r.
Proof. intros (g & _ & Hr & Ht). exists g. auto. Qed.

Lemma pages_loop_kept (self : remote) (session_id : string) (max_games : Z) :
  forall fuel acc token t acc' t',
    Forall kept acc ->
    pages_loop self fuel session_id max_games acc token t = Some (acc', t') ->
    Forall kept acc'.
Proof.
  induction fuel as [|fuel IH]; intros acc token t acc' t' Hacc H; [discriminate|].
  cbn [pages_loop] in H.
  destruct (Z.of_nat (List.length acc) <? max_games)%Z; [|now injection H as <- _].
  destruct (negb _); [now injection H as <- _|].
  destruct (json_body _) as [data|]; [|now injection H as <- _].
  destruct (collect_page data acc) as [acc1 r] eqn:Hpage.
  apply collect_page_appends in Hpage as (new & -> & Hnew).
  assert (Hacc1 : Forall kept (acc ++ new)).
  { apply Forall_app. split; [exact Hacc|].
    eapply Forall_impl; [|exact Hnew]. intros a. apply kept_from_kept. }
  destruct r as [next|e]; [|now injection H as <- _].
  destruct (truthy next); [|now injection H as <- _].
  eapply IH; [exact Hacc1 | exact H].
Qed.

Lemma py_take_incl {A : Type} (m : Z) (xs : list A) : incl (py_take m xs) xs.
Proof.
  assert (Hfirstn : forall n, incl (firstn n xs) xs).
  { intros n x Hx. rewrite <- (firstn_skipn n xs). apply in_or_app. now left. }
  unfold py_take. destruct (0 <=? m)%Z; apply Hfirstn.
Qed.

Lemma py_take_length {A : Type} (m : Z) (xs : list A) :
  (0 <= m)%Z -> (Z.of_nat (List.length (py_take m xs)) <= m)%Z.
Proof.
  intros Hm. unfold py_take.
  apply Z.leb_le in Hm as Hm'. rewrite Hm'.
  rewrite length_firstn. lia.
Qed.

(** How a page ends does not depend on what was collected before it. *)
Lemma games_loop_snd (games : list pyval) :
  forall acc acc', snd (games_loop games acc) = snd (games_loop games acc').
Proof.
  induction games as [|game games IH]; intros acc acc'; [reflexivity|].
  destruct (basic_record game) as [rec|e] eqn:Hrec.
  - apply basic_record_inv in Hrec as (g & -> & _).
    rewrite !games_loop_cons_dict. apply IH.
  - now rewrite !(games_loop_cons_raise _ _ _ _ Hrec).
Qed.

Lemma sorts_loop_snd (sorts : list pyval) :
  forall acc acc', snd (sorts_loop sorts acc) = snd (sorts_loop sorts acc').
Proof.
  induction sorts as [|sort sorts IH]; intros acc acc'; [reflexivity|].
  cbn [sorts_loop].
  destruct (games <- py_get sort "games" (PList []) ;; py_iter games) as [xs|e];
    [|reflexivity].
  pose proof (games_loop_snd xs acc acc') as Hsnd.
  destruct (games_loop xs acc) as [a1 r1], (games_loop xs acc') as [a2 r2].
  cbn in Hsnd. subst r2.
  destruct r1; [apply IH | reflexivity].
Qed.

Lemma collect_page_snd (data : pyval) (acc acc' : list dict) :
  snd (collect_page data acc) = snd (collect_page data acc').
Proof.
  unfold collect_page.
  destruct (sorts <- py_get data "sorts" (PList []) ;; py_iter sorts) as [xs|e];
    [|reflexivity].
  pose proof (sorts_loop_snd xs acc acc') as Hsnd.
  destruct (sorts_loop xs acc) as [a1 r1], (sorts_loop xs acc') as [a2 r2].
  cbn in Hsnd. subst r2.
  destruct r1; reflexivity.
Qed.

(** The loop is over once a last page has been served, at the latest. *)
Lemma pages_loop_returns (self : remote) (session_id : string) (max_games : Z) :
  forall n fuel acc token t,
    (forall token',
        last_page (sorts_api self (sorts_calls t + n) session_id token') = true) ->
    (n < fuel)%nat ->
    exists out, pages_loop self fuel session_id max_games acc token t = Some out.
Proof.
  induction n as [|n IH]; intros fuel acc token t Hlast Hfuel;
    (destruct fuel as [|fuel]; [lia|]); cbn [pages_loop].
  - destruct (Z.of_nat (List.length acc) <? max_games)%Z; [|eauto].
    set (tok := if truthy token then Some token else None).
    specialize (Hlast tok). rewrite Nat.add_0_r in Hlast.
    unfold last_page in Hlast.
    destruct (negb _); [eauto|]. cbn [orb] in Hlast.
    destruct (json_body _) as [data|]; [|eauto].
    rewrite (collect_page_snd data [] acc) in Hlast.
    destruct (collect_page data acc) as [acc1 [next|e]]; [|eauto].
    cbn [snd] in Hlast. destruct (truthy next); [discriminate | eauto].
  - destruct (Z.of_nat (List.length acc) <? max_games)%Z; [|eauto].
    destruct (negb _); [eauto|].
    destruct (json_body _) as [data|]; [|eauto].
    destruct (collect_page data acc) as [acc1 [next|e]]; [|eauto].
    destruct (truthy next); [|eauto].
    apply IH; [|lia].
    intros token'. rewrite !sorts_calls_app. cbn.
    replace (sorts_calls t + 1 + 0 + n)%nat with (sorts_calls t + S n)%nat by lia.
    apply Hlast.
Qed.

(** ** The length bound (C5) *)

(** C5: for every non-negative [max_games] and every listing oracle, a
    result of [fetch_game_ids_from_api] has at most [max_games] records;
    and the function does return one, within n+1 pages, whenever the
    n-th answer of the oracle is a last page. *)
Theorem fetch_game_ids_from_api_length :
  forall (self : remote) (session_id : string) (max_games : Z) (t : trace),
    (0 <= max_games)%Z ->
    (forall fuel result t',
        fetch_game_ids_from_api self fuel session_id max_games t = Some (result, t') ->
        (Z.of_nat (List.length result) <= max_games)%Z)
    /\
    (forall n,
        (forall token,
            last_page (sorts_api self (sorts_calls t + n) session_id token) = true) ->
        forall fuel, (n < fuel)%nat ->
        exists result t',
          fetch_game_ids_from_api self fuel session_id max_games t = Some (result, t')
          /\ (Z.of_nat (List.length result) <= max_games)%Z).
Proof.
  intros self session_id max_games t Hmax.
  assert (Hlen : forall fuel result t',
             fetch_game_ids_from_api self fuel session_id max_games t = Some (result, t') ->
             (Z.of_nat (List.length result) <= max_games)%Z).
  { intros fuel result t'. unfold fetch_game_ids_from_api.
    destruct (pages_loop _ _ _ _ _ _ _) as [[acc t1]|]; [|discriminate].
    intros [= <- _]. now apply py_take_length. }
  split; [exact Hlen|].
  intros n Hlast fuel Hfuel.
  destruct (pages_loop_returns self session_id max_games n fuel [] PNone t Hlast Hfuel)
    as ([acc t1] & Hloop).
  exists (py_take max_games acc), t1.
  assert (Hrun : fetch_game_ids_from_api self fuel session_id max_games t =
                 Some (py_take max_games acc, t1)).
  { unfold fetch_game_ids_from_api. now rewrite Hloop. }
  split; [exact Hrun | exact (Hlen _ _ _ Hrun)].
Qed.

Lemma fetch_game_ids_from_api_length_witness :
  exists result t',
    fetch_game_ids_from_api
      (Mock.listing [Mock.page [Mock.listed 1 "A" 5; Mock.listed 2 "B" 6;
                                Mock.listed 3 "C" 7] None])
      1 "session" 2 [] = Some (result, t')
    /\ (Z.of_nat (List.length result) <= 2)%Z.
Proof.
  apply (proj2 (fetch_game_ids_from_api_length
                  (Mock.listing [Mock.page [Mock.listed 1 "A" 5; Mock.listed 2 "B" 6;
                                            Mock.listed 3 "C" 7] None])
                  "session" 2 [] ltac:(lia)) 0%nat).
  - intros token. reflexivity.
  - lia.
Defined.

(** One page of three items, cut to the two asked for. *)
Example fetch_game_ids_from_api_truncates :
  fetch_game_ids_from_api
    (Mock.listing [Mock.page [Mock.listed 1 "A" 5; Mock.listed 2 "B" 6;
                              Mock.listed 3 "C" 7] None])
    1 "session" 2 [] =
  Some ([ [ ("UniverseId", PInt 1); ("Name", PStr "A"); ("PlayerCount", PInt 5);
            ("Upvotes", PInt 0); ("Downvotes", PInt 0) ];
          [ ("UniverseId", PInt 2); ("Name", PStr "B"); ("PlayerCount", PInt 6);
            ("Upvotes", PInt 0); ("Downvotes", PInt 0) ] ],
        [GetSorts "session" None; Print NoMorePages]).
Proof. reflexivity. Qed.

(** ** Which items are kept (C3) *)

(** C3 as stated fails on an item whose identifier is the integer 0: it
    is listed, its identifier is not null, and no record is appended for
    it. *)
Lemma zero_identifier_is_not_kept :
  In (PDict Mock.zero_item) (listed_games (Mock.page [PDict Mock.zero_item] None))
  /\ identifier Mock.zero_item <> PNone
  /\ collect_page (Mock.page [PDict Mock.zero_item] None) [] = ([], Ok PNone)
  /\ fetch_game_ids_from_api
       (Mock.listing [Mock.page [PDict Mock.zero_item] None]) 1 "session" 60000 []
     = Some ([], [GetSorts "session" None; Print NoMorePages]).
Proof.
  repeat split.
  - now left.
  - discriminate.
Qed.

(** C3, amended: the test on line 52 is Python truthiness.  On a page
    that is processed to its end, the items are objects and the records
    appended are, in listing order, the BasicRecords (defaults applied) of
    exactly the items whose identifier is truthy: present, not null, and
    not 0, false or empty.  However a page ends, what it appended are
    records of listed items with a truthy identifier.  So every record
    [fetch_game_ids_from_api] returns has a truthy, hence non-null,
    identifier. *)
Theorem fetch_game_ids_from_api_keeps_truthy_identifiers :
  (forall data acc acc' next,
      collect_page data acc = (acc', Ok next) ->
      exists gs,
        listed_games data = map PDict gs /\
        acc' = acc ++ map basic_of (filter (fun g => truthy (identifier g)) gs))
  /\
  (forall data acc acc' r,
      collect_page data acc = (acc', r) ->
      exists new, acc' = acc ++ new /\ Forall (kept_from (listed_games data)) new)
  /\
  (forall self fuel session_id max_games t result t',
      fetch_game_ids_from_api self fuel session_id max_games t = Some (result, t') ->
      forall r, In r result ->
      exists uid,
        dict_lookup "UniverseId" r = Some uid /\ truthy uid = true /\ uid <> PNone).
Proof.
  split; [|split].
  - intros data acc acc' next. apply collect_page_finished.
  - intros data acc acc' r. apply collect_page_appends.
  - intros self fuel session_id max_games t result t' H r Hr.
    unfold fetch_game_ids_from_api in H.
    destruct (pages_loop _ _ _ _ _ _ _) as [[acc t1]|] eqn:Hloop; [|discriminate].
    injection H as <- _.
    apply pages_loop_kept in Hloop; [|constructor].
    apply py_take_incl in Hr.
    rewrite Forall_forall in Hloop.
    destruct (Hloop r Hr) as (g & -> & Ht).
    exists (identifier g). repeat split; [exact Ht|].
    intros Heq. rewrite Heq in Ht. discriminate.
Qed.

Lemma fetch_game_ids_from_api_keeps_truthy_identifiers_witness :
  (exists gs,
      listed_games (Mock.page [Mock.listed 1 "A" 5; PDict Mock.zero_item] None)
      = map PDict gs /\
      [Mock.basic 9 9] ++ [basic_of [("universeId", PInt 1); ("name", PStr "A");
                                    ("playerCount", PInt 5)]]
      = [Mock.basic 9 9] ++ map basic_of (filter (fun g => truthy (identifier g)) gs))
  /\
  (exists uid,
      dict_lookup "UniverseId" (Mock.basic 1 5) = Some uid
      /\ truthy uid = true /\ uid <> PNone).
Proof.
  split.
  - apply (proj1 fetch_game_ids_from_api_keeps_truthy_identifiers
             (Mock.page [Mock.listed 1 "A" 5; PDict Mock.zero_item] None)
             [Mock.basic 9 9] _ PNone).
    reflexivity.
  - apply (proj2 (proj2 fetch_game_ids_from_api_keeps_truthy_identifiers)
             (Mock.listing
                [Mock.page [PDict [("universeId", PInt 1); ("playerCount", PInt 5)]] None])
             1%nat "session" 1%Z [] [Mock.basic 1 5]
             [GetSorts "session" None; Print NoMorePages]).
    + reflexivity.
    + now left.
Defined.

(** ** Dictionaries: lookups and updates *)

Lemma dict_lookup_app (k : string) (d e : dict) :
  dict_lookup k (d ++ e) =
  match dict_lookup k d with
  | Some v => Some v
  | None => dict_lookup k e
  end.
Proof.
  induction d as [|[k' v'] d IH]; [reflexivity|].
  cbn. destruct (String.eqb k k'); [reflexivity | exact IH].
Qed.

Lemma dict_lookup_None (k : string) (d : dict) :
  dict_lookup k d = None <-> ~ In k (keys d).
Proof.
  induction d as [|[k' v'] d IH]; cbn.
  - tauto.
  - destruct (String.eqb_spec k k') as [->|Hne].
    + split; [discriminate | intros H; exfalso; apply H; now left].
    + rewrite IH. split.
      * intros H [Heq|Hin]; [now apply Hne | now apply H].
      * intros H Hin. apply H. now right.
Qed.

Lemma dict_lookup_first (k : string) (ks : list string) (d : dict) :
  keys d = k :: ks -> exists v, dict_lookup k d = Some v.
Proof.
  destruct d as [|[k' v'] d]; [discriminate|].
  cbn. intros [= -> _]. rewrite String.eqb_refl. eauto.
Qed.

(** Setting a key that is not in the first part of a dictionary only
    touches the rest. *)
Lemma dict_set_app (k : string) (v : pyval) (d e : dict) :
  dict_lookup k d = None ->
  dict_set (d ++ e) k v = d ++ dict_set e k v.
Proof.
  induction d as [|[k' v'] d IH]; [reflexivity|].
  cbn. destruct (String.eqb k k'); [discriminate|].
  intros H. now rewrite IH.
Qed.

Lemma dict_update_app (d e other : dict) :
  (forall k, In k (keys other) -> dict_lookup k d = None) ->
  dict_update (d ++ e) other = d ++ dict_update e other.
Proof.
  unfold dict_update. revert e.
  induction other as [|[k v] other IH]; intros e H; [reflexivity|].
  cbn [fold_left fst snd].
  rewrite dict_set_app by (apply H; now left).
  apply IH. intros k' Hk'. apply H. now right.
Qed.

(** ** Detail records *)

Lemma detail_record_keys (game : pyval) (detail : dict) :
  detail_record game = Ok detail -> keys detail = detail_keys.
Proof.
  destruct game as [| | | | |g]; try discriminate.
  unfold detail_record. cbn.
  destruct (dict_get g "creator" (PDict [])); try discriminate.
  cbn. now intros [= <-].
Qed.

Lemma mapM_Forall {A B : Type} (f : A -> res B) (P : B -> Prop) :
  (forall a b, f a = Ok b -> P b) ->
  forall xs ys, mapM f xs = Ok ys -> Forall P ys.
Proof.
  intros Hf. induction xs as [|x xs IH]; intros ys H; cbn in H.
  - injection H as <-. constructor.
  - destruct (f x) as [y|e] eqn:Hy; [|discriminate]. cbn in H.
    destruct (mapM f xs) as [ys'|e]; [|discriminate]. cbn in H.
    injection H as <-. constructor; eauto.
Qed.

Lemma mapM_length {A B : Type} (f : A -> res B) :
  forall xs ys, mapM f xs = Ok ys -> List.length ys = List.length xs.
Proof.
  induction xs as [|x xs IH]; intros ys H; cbn in H.
  - now injection H as <-.
  - destruct (f x) as [y|e]; [|discriminate]. cbn in H.
    destruct (mapM f xs) as [ys'|e]; [|discriminate]. cbn in H.
    injection H as <-. cbn. f_equal. now apply IH.
Qed.

Lemma mapM_In {A B : Type} (f : A -> res B) :
  forall xs ys, mapM f xs = Ok ys -> forall x, In x xs -> exists y, f x = Ok y.
Proof.
  induction xs as [|x xs IH]; intros ys H a Ha; [contradiction|]. cbn in H.
  destruct (f x) as [y|e] eqn:Hy; [|discriminate]. cbn in H.
  destruct (mapM f xs) as [ys'|e]; [|discriminate].
  destruct Ha as [<-|Ha]; eauto.
Qed.

(** Every list [fetch_game_details] returns holds DetailRecords. *)
Lemma details_try_records (r : response) (records : list dict) :
  details_try r = Ok (RList records) ->
  Forall (fun detail => keys detail = detail_keys) records.
Proof.
  unfold details_try.
  destruct (json_body r) as [data|]; [|discriminate]. cbn.
  destruct (py_contains "data" data) as [[|]|e]; try discriminate. cbn.
  destruct (py_getitem data "data") as [entries|e]; [|discriminate]. cbn.
  destruct (py_iter entries) as [games|e]; [|discriminate]. cbn.
  destruct (mapM detail_record games) as [recs|e] eqn:Hmap; [|discriminate]. cbn.
  intros [= <-].
  eapply mapM_Forall; [|exact Hmap]. apply detail_record_keys.
Qed.

Lemma fetch_game_details_records (self : remote) (ids : list pyval) :
  forall depth t records t',
    fetch_game_details self depth ids t = (Ok (RList records), t') ->
    Forall (fun detail => keys detail = detail_keys) records.
Proof.
  induction depth as [|depth IH]; intros t records t' H; [discriminate|].
  cbn [fetch_game_details] in H.
  destruct (status_code _ =? 429)%Z; [now apply IH in H|].
  destruct (negb _); [injection H as <- _; constructor|].
  destruct (details_try _) as [v|e] eqn:Htry.
  - injection H as -> _. now apply details_try_records in Htry.
  - injection H as <- _. constructor.
Qed.

(** [fetch_game_details] announces no batch itself. *)
Lemma fetch_game_details_batches_fetched (self : remote) (ids : list pyval) :
  forall depth t v t',
    fetch_game_details self depth ids t = (v, t') ->
    batches_fetched t' = batches_fetched t.
Proof.
  induction depth as [|depth IH]; intros t v t' H; [now injection H as _ <-|].
  cbn [fetch_game_details] in H.
  destruct (status_code _ =? 429)%Z.
  - apply IH in H. rewrite H, !batches_fetched_app. cbn. now rewrite !app_nil_r.
  - destruct (negb _); [|destruct (details_try _)]; injection H as _ <-;
      rewrite !batches_fetched_app; cbn; now rewrite !app_nil_r.
Qed.

(** ** The join *)

Lemma not_in_detail_keys (k : string) :
  In k ["PlayerCount"; "Upvotes"; "Downvotes"] -> ~ In k detail_keys.
Proof.
  intros [<-|[<-|[<-|[]]]] H; cbn in H;
    repeat (destruct H as [H|H]; [discriminate|]); exact H.
Qed.

(** On a DetailRecord the update of lines 125-129 appends the three
    fields. *)
Lemma update_detail (detail basic : dict) :
  keys detail = detail_keys ->
  dict_update detail
    [ ("PlayerCount", dict_get basic "PlayerCount" (PInt 0));
      ("Upvotes", dict_get basic "Upvotes" (PInt 0));
      ("Downvotes", dict_get basic "Downvotes" (PInt 0)) ]
  = merged_record detail basic.
Proof.
  intros Hkeys. rewrite <- (app_nil_r detail) at 1.
  rewrite dict_update_app; [reflexivity|].
  intros k Hk. apply dict_lookup_None. rewrite Hkeys.
  now apply not_in_detail_keys.
Qed.

(** The scan finds the first basic record that matches. *)
Lemma merge_detail_spec (detail : dict) :
  keys detail = detail_keys ->
  forall game_data universe_ids,
    mapM (fun game => dict_getitem game "UniverseId") game_data = Ok universe_ids ->
    merge_detail game_data detail =
    Ok (option_map (merged_record detail) (find (matches detail) game_data)).
Proof.
  intros Hkeys.
  destruct (dict_lookup_first _ _ _ Hkeys) as (d & Hd).
  induction game_data as [|basic game_data IH]; intros ids Hids; [reflexivity|].
  cbn in Hids. unfold dict_getitem in Hids at 1.
  destruct (dict_lookup "UniverseId" basic) as [b|] eqn:Hb; [|discriminate].
  cbn in Hids.
  destruct (mapM _ game_data) as [ids'|e] eqn:Hrest; [|discriminate].
  assert (Hm : matches detail basic = py_eq b d)
    by (unfold matches; now rewrite Hb, Hd).
  cbn [merge_detail find]. unfold dict_getitem. rewrite Hb, Hd, Hm. cbn [bind].
  destruct (py_eq b d).
  - rewrite update_detail by exact Hkeys. reflexivity.
  - exact (IH ids' eq_refl).
Qed.

Lemma merge_batch_spec (game_data : list dict) (universe_ids : list pyval) :
  mapM (fun game => dict_getitem game "UniverseId") game_data = Ok universe_ids ->
  forall batch_data games_data,
    Forall (fun detail => keys detail = detail_keys) batch_data ->
    merge_batch game_data batch_data games_data =
    Ok (games_data ++ merged_batch game_data batch_data).
Proof.
  intros Hids.
  induction batch_data as [|detail batch_data IH]; intros games_data Hall.
  - cbn. now rewrite app_nil_r.
  - inversion Hall as [|? ? Hdetail Hrest]; subst.
    cbn [merge_batch]. rewrite (merge_detail_spec _ Hdetail _ _ Hids). cbn [bind].
    rewrite IH by exact Hrest.
    unfold merged_batch. cbn [flat_map].
    destruct (find (matches detail) game_data); cbn [option_map].
    + now rewrite <- app_assoc.
    + reflexivity.
Qed.

(** What the batch loop returns when it returns normally. *)
Lemma scrape_loop_spec (self : remote) (depth : nat) (game_data : list dict)
    (universe_ids : list pyval) :
  mapM (fun game => dict_getitem game "UniverseId") game_data = Ok universe_ids ->
  forall starts games_data t out t',
    scrape_loop self depth game_data universe_ids starts games_data t = (Ok out, t') ->
    exists fetches,
      fetched self depth
        (map (fun i => py_slice universe_ids i (i + batch_size)) starts) t fetches t'
      /\ out = games_data ++ flat_map (merged_batch game_data) fetches.
Proof.
  intros Hids.
  induction starts as [|i starts IH]; intros games_data t out t' H.
  - injection H as <- <-. exists []. split; [constructor | now rewrite app_nil_r].
  - cbn [scrape_loop] in H.
    destruct (fetch_game_details _ _ _ _) as [[v|e] t1] eqn:Hfetch; [|discriminate].
    destruct v as [batch_data|]; cbn [iter_retval bind] in H; [|discriminate].
    rewrite (merge_batch_spec _ _ Hids) in H
      by (eapply fetch_game_details_records; exact Hfetch).
    apply IH in H as (fetches & Hrun & ->).
    exists (batch_data :: fetches). split.
    + cbn [map]. econstructor; [exact Hfetch | exact Hrun].
    + cbn [flat_map]. now rewrite app_assoc.
Qed.

Lemma scrape_games_spec (self : remote) (depth : nat) (game_data : list dict)
    (t : trace) (out : list dict) (t' : trace) :
  scrape_games self depth game_data t = (Ok out, t') ->
  exists universe_ids fetches,
    mapM (fun game => dict_getitem game "UniverseId") game_data = Ok universe_ids
    /\ fetched self depth (batches batch_size universe_ids) t fetches t'
    /\ out = flat_map (merged_batch game_data) fetches.
Proof.
  unfold scrape_games. intros H.
  destruct (mapM _ game_data) as [ids|e] eqn:Hids; [|discriminate].
  apply (scrape_loop_spec _ _ _ _ Hids) in H as (fetches & Hrun & ->).
  exists ids, fetches. auto.
Qed.

(** The converse: a run in which every fetch returned a list makes the
    loop return normally. *)
Lemma scrape_loop_complete (self : remote) (depth : nat) (game_data : list dict)
    (universe_ids : list pyval) :
  mapM (fun game => dict_getitem game "UniverseId") game_data = Ok universe_ids ->
  forall starts games_data t fetches t',
    fetched self depth
      (map (fun i => py_slice universe_ids i (i + batch_size)) starts) t fetches t' ->
    scrape_loop self depth game_data universe_ids starts games_data t =
    (Ok (games_data ++ flat_map (merged_batch game_data) fetches), t').
Proof.
  intros Hids.
  induction starts as [|i starts IH]; intros games_data t fetches t' Hrun;
    cbn [map] in Hrun; inversion Hrun; subst.
  - cbn. now rewrite app_nil_r.
  - cbn [scrape_loop].
    match goal with H : fetch_game_details _ _ _ _ = _ |- _ =>
      rewrite H; cbn [iter_retval bind];
      rewrite (merge_batch_spec _ _ Hids)
        by (eapply fetch_game_details_records; exact H)
    end.
    erewrite IH by eassumption.
    cbn [flat_map]. now rewrite app_assoc.
Qed.

(** ** The merged record (C7) *)

Lemma find_first {A : Type} (p : A -> bool) (before : list A) (x : A) (after : list A) :
  Forall (fun a => p a = false) before ->
  p x = true ->
  find p (before ++ x :: after) = Some x.
Proof.
  induction 1 as [|a before Ha _ IH]; intros Hx; cbn.
  - now rewrite Hx.
  - rewrite Ha. now apply IH.
Qed.

(** C7: when [basic] is the first record of [game_data] that matches a
    DetailRecord, the scan yields the DetailRecord followed by exactly the
    fields PlayerCount, Upvotes and Downvotes, taken from [basic] (with
    default 0); every field of the DetailRecord keeps its value. *)
Theorem merge_detail_first_match :
  forall (game : pyval) (detail : dict) (before : list dict) (basic : dict)
         (after : list dict) (universe_ids : list pyval),
    detail_record game = Ok detail ->
    mapM (fun game => dict_getitem game "UniverseId") (before ++ basic :: after)
      = Ok universe_ids ->
    Forall (fun earlier => matches detail earlier = false) before ->
    matches detail basic = true ->
    exists merged,
      merge_detail (before ++ basic :: after) detail = Ok (Some merged)
      /\ merged = detail ++
                  [ ("PlayerCount", dict_get basic "PlayerCount" (PInt 0));
                    ("Upvotes", dict_get basic "Upvotes" (PInt 0));
                    ("Downvotes", dict_get basic "Downvotes" (PInt 0)) ]
      /\ keys merged = detail_keys ++ ["PlayerCount"; "Upvotes"; "Downvotes"]
      /\ (forall k, In k detail_keys -> dict_lookup k merged = dict_lookup k detail)
      /\ dict_lookup "PlayerCount" merged = Some (dict_get basic "PlayerCount" (PInt 0))
      /\ dict_lookup "Upvotes" merged = Some (dict_get basic "Upvotes" (PInt 0))
      /\ dict_lookup "Downvotes" merged = Some (dict_get basic "Downvotes" (PInt 0)).
Proof.
  intros game detail before basic after ids Hdetail Hids Hbefore Hbasic.
  apply detail_record_keys in Hdetail as Hkeys.
  exists (merged_record detail basic).
  assert (Hfresh : forall k, In k ["PlayerCount"; "Upvotes"; "Downvotes"] ->
                             dict_lookup k detail = None).
  { intros k Hk. apply dict_lookup_None. rewrite Hkeys. now apply not_in_detail_keys. }
  split; [|split; [|split; [|split; [|split; [|split]]]]].
  - rewrite (merge_detail_spec _ Hkeys _ _ Hids).
    now rewrite (find_first _ _ _ _ Hbefore Hbasic).
  - reflexivity.
  - unfold merged_record, keys. rewrite map_app. fold (keys detail). now rewrite Hkeys.
  - intros k Hk. unfold merged_record. rewrite dict_lookup_app.
    destruct (dict_lookup k detail) as [v|] eqn:Hv; [reflexivity|].
    apply dict_lookup_None in Hv. rewrite Hkeys in Hv. contradiction.
  - unfold merged_record. rewrite dict_lookup_app, Hfresh; [reflexivity|]. cbn; auto.
  - unfold merged_record. rewrite dict_lookup_app, Hfresh; [reflexivity|]. cbn; auto.
  - unfold merged_record. rewrite dict_lookup_app, Hfresh; [reflexivity|]. cbn; auto.
Qed.

Lemma merge_detail_first_match_witness :
  exists merged,
    merge_detail [Mock.basic 2 20; Mock.basic 1 10; Mock.basic 1 99]
      Mock.detail_one = Ok (Some merged)
    /\ dict_lookup "PlayerCount" merged = Some (PInt 10)
    /\ dict_lookup "Name" merged = Some (PStr "One").
Proof.
  destruct (merge_detail_first_match (Mock.game 1 "One") _
              [Mock.basic 2 20] (Mock.basic 1 10) [Mock.basic 1 99]
              [PInt 2; PInt 1; PInt 1] eq_refl eq_refl
              ltac:(repeat constructor) eq_refl)
    as (merged & Hrun & Hmerged & _ & _ & _ & _ & _).
  exists merged. split; [exact Hrun|].
  rewrite Hmerged. split; reflexivity.
Defined.

(** ** Batches (C6) *)

Lemma fetched_batches (self : remote) (depth : nat) :
  forall batch_list t fetches t',
    fetched self depth batch_list t fetches t' ->
    batches_fetched t' = batches_fetched t ++ batch_list
    /\ List.length fetches = List.length batch_list.
Proof.
  induction 1 as [t | batch_ids rest t t1 t2 batch_data others Hfetch _ [IHb IHl]].
  - now rewrite app_nil_r.
  - apply fetch_game_details_batches_fetched in Hfetch.
    rewrite IHb, batches_fetched_app, Hfetch, batches_fetched_app. cbn.
    rewrite app_nil_r, <- app_assoc. cbn. now rewrite IHl.
Qed.

(** The slices taken at the start indices of [range] tile the list. *)
Lemma slices_tile {A : Type} (xs : list A) (size : nat) :
  (0 < size)%nat ->
  forall fuel start,
    (List.length xs - start <= fuel)%nat ->
    List.concat (map (fun i => py_slice xs i (i + size))
                (range_from fuel start (List.length xs) size))
    = skipn start xs.
Proof.
  intros Hsize.
  induction fuel as [|fuel IH]; intros start Hfuel; cbn [range_from].
  - cbn. symmetry. apply skipn_all2. lia.
  - destruct (Nat.ltb_spec start (List.length xs)) as [Hlt|Hge].
    + cbn [map List.concat]. rewrite IH by lia.
      unfold py_slice.
      replace (start + size - start)%nat with size by lia.
      rewrite Nat.add_comm, <- skipn_skipn.
      apply firstn_skipn.
    + cbn. symmetry. apply skipn_all2. lia.
Qed.

Lemma batches_tile (universe_ids : list pyval) :
  List.concat (batches batch_size universe_ids) = universe_ids.
Proof.
  unfold batches, py_range.
  rewrite slices_tile; [reflexivity | unfold batch_size; lia | lia].
Qed.

Lemma batches_of_120 (universe_ids : list pyval) :
  List.length universe_ids = 120%nat ->
  map (@List.length pyval) (batches batch_size universe_ids) = [50; 50; 20]%nat.
Proof.
  intros Hlen. unfold batches. rewrite Hlen.
  change (py_range 0 120 batch_size) with [0; 50; 100]%nat.
  cbn [map]. unfold py_slice.
  rewrite !length_firstn, !length_skipn, Hlen. reflexivity.
Qed.

(** C6: when [scrape_games] returns normally it has called
    [fetch_game_details] once for each consecutive batch of 50 ids, in
    order, announcing each batch before the call, and the batches put end
    to end are the ids of [game_data]; for 120 basic records these are
    three calls, with 50, 50 and 20 ids. *)
Theorem scrape_games_batches :
  forall (self : remote) (depth : nat) (game_data : list dict) (t : trace)
         (out : list dict) (t' : trace),
    scrape_games self depth game_data t = (Ok out, t') ->
    exists universe_ids fetches,
      mapM (fun game => dict_getitem game "UniverseId") game_data = Ok universe_ids
      /\ fetched self depth (batches batch_size universe_ids) t fetches t'
      /\ List.length fetches = List.length (batches batch_size universe_ids)
      /\ batches_fetched t' = batches_fetched t ++ batches batch_size universe_ids
      /\ List.concat (batches batch_size universe_ids) = universe_ids
      /\ (List.length game_data = 120%nat ->
          map (@List.length pyval) (batches batch_size universe_ids) = [50; 50; 20]%nat).
Proof.
  intros self depth game_data t out t' H.
  apply scrape_games_spec in H as (ids & fetches & Hids & Hrun & _).
  destruct (fetched_batches _ _ _ _ _ _ Hrun) as [Hprinted Hcount].
  exists ids, fetches.
  split; [exact Hids|]. split; [exact Hrun|]. split; [exact Hcount|].
  split; [exact Hprinted|]. split; [apply batches_tile|].
  intros Hlen. apply batches_of_120.
  now rewrite (mapM_length _ _ _ Hids).
Qed.

Lemma scrape_games_batches_witness :
  exists (out : list dict) (t' : trace) (fetches : list (list dict)),
    scrape_games Mock.echo 1 Mock.basics120 [] = (Ok out, t')
    /\ List.length fetches = 3%nat
    /\ map (@List.length pyval) (batches_fetched t') = [50; 50; 20]%nat.
Proof.
  destruct (scrape_games Mock.echo 1 Mock.basics120 []) as [[out|e] t'] eqn:Hrun;
    [|vm_compute in Hrun; discriminate].
  destruct (scrape_games_batches Mock.echo 1 Mock.basics120 [] out t' Hrun)
    as (ids & fetches & _ & _ & Hcount & Hbatches & _ & H120).
  specialize (H120 eq_refl).
  exists out, t', fetches. split; [reflexivity|]. split.
  - rewrite Hcount.
    rewrite <- (length_map (@List.length pyval) (batches batch_size ids)), H120.
    reflexivity.
  - rewrite Hbatches. exact H120.
Defined.

(** ** Which records are merged (C4) *)

Lemma merged_batch_In (game_data batch_data : list dict) (m : dict) :
  In m (merged_batch game_data batch_data) ->
  exists detail basic,
    In detail batch_data /\ In basic game_data
    /\ matches detail basic = true /\ m = merged_record detail basic.
Proof.
  unfold merged_batch. rewrite in_flat_map. intros (detail & Hdetail & Hm).
  destruct (find (matches detail) game_data) as [basic|] eqn:Hfind; [|contradiction].
  destruct Hm as [<-|[]].
  apply find_some in Hfind as [Hin Hmatch].
  exists detail, basic. auto.
Qed.

(** C4: every record [scrape_games] returns joins a detail record of one
    of the fetched batches with a basic record of [game_data] that has an
    equal id.  With basic records of ids 1 and 2 and a fetch that yields a
    single detail record, of id 1, the result is that one merged record;
    id 2 is dropped and nothing is raised. *)
Theorem scrape_games_merges_only_matches :
  (forall (self : remote) (depth : nat) (game_data : list dict) (t : trace)
          (out : list dict) (t' : trace),
      scrape_games self depth game_data t = (Ok out, t') ->
      exists universe_ids fetches,
        fetched self depth (batches batch_size universe_ids) t fetches t'
        /\ forall m, In m out ->
           exists batch_data detail basic,
             In batch_data fetches /\ In detail batch_data /\ In basic game_data
             /\ matches detail basic = true /\ m = merged_record detail basic)
  /\
  (forall (self : remote) (depth : nat) (basic1 basic2 detail : dict) (t t1 : trace),
      dict_lookup "UniverseId" basic1 = Some (PInt 1) ->
      dict_lookup "UniverseId" basic2 = Some (PInt 2) ->
      fetch_game_details self depth [PInt 1; PInt 2]
        (t ++ [Print (FetchingIds [PInt 1; PInt 2])]) = (Ok (RList [detail]), t1) ->
      dict_lookup "UniverseId" detail = Some (PInt 1) ->
      scrape_games self depth [basic1; basic2] t =
      (Ok [merged_record detail basic1], t1 ++ [Sleep 1])).
Proof.
  split.
  - intros self depth game_data t out t' H.
    apply scrape_games_spec in H as (ids & fetches & _ & Hrun & ->).
    exists ids, fetches. split; [exact Hrun|].
    intros m Hm. apply in_flat_map in Hm as (batch_data & Hbatch & Hm).
    apply merged_batch_In in Hm as (detail & basic & H).
    exists batch_data, detail, basic. tauto.
  - intros self depth basic1 basic2 detail t t1 H1 H2 Hfetch Hdetail.
    assert (Hids : mapM (fun game => dict_getitem game "UniverseId") [basic1; basic2]
                   = Ok [PInt 1; PInt 2]).
    { cbn. unfold dict_getitem. now rewrite H1, H2. }
    unfold scrape_games. rewrite Hids.
    change (py_range 0 (List.length [PInt 1; PInt 2]) batch_size) with [0%nat].
    rewrite (scrape_loop_complete _ _ _ _ Hids [0%nat] [] t [[detail]] (t1 ++ [Sleep 1])).
    + cbn [flat_map app]. unfold merged_batch. cbn [flat_map find].
      assert (Hm : matches detail basic1 = true)
        by (unfold matches; now rewrite H1, Hdetail).
      now rewrite Hm.
    + econstructor; [exact Hfetch | constructor].
Qed.

Lemma scrape_games_merges_only_matches_witness :
  (forall m,
      In m [merged_record Mock.detail_one (Mock.basic 1 10)] ->
      exists batch_data detail basic,
        In detail batch_data
        /\ In basic [Mock.basic 1 10; Mock.basic 2 20]
        /\ matches detail basic = true
        /\ m = merged_record detail basic)
  /\
  scrape_games (Mock.details_always (PDict [("data", PList [Mock.game 1 "One"])]))
    1 [Mock.basic 1 10; Mock.basic 2 20] [] =
  (Ok [merged_record Mock.detail_one (Mock.basic 1 10)],
   [Print (FetchingIds [PInt 1; PInt 2]); GetDetails [PInt 1; PInt 2]; Sleep 1]).
Proof.
  split.
  - destruct (proj1 scrape_games_merges_only_matches
                (Mock.details_always (PDict [("data", PList [Mock.game 1 "One"])]))
                1%nat [Mock.basic 1 10; Mock.basic 2 20] []
                [merged_record Mock.detail_one (Mock.basic 1 10)]
                [Print (FetchingIds [PInt 1; PInt 2]); GetDetails [PInt 1; PInt 2];
                 Sleep 1]
                eq_refl)
      as (ids & fetches & _ & Hin).
    intros m Hm.
    destruct (Hin m Hm) as (batch_data & detail & basic & _ & H).
    exists batch_data, detail, basic. exact H.
  - apply (proj2 scrape_games_merges_only_matches
             (Mock.details_always (PDict [("data", PList [Mock.game 1 "One"])]))
             1%nat (Mock.basic 1 10) (Mock.basic 2 20) Mock.detail_one []
             [Print (FetchingIds [PInt 1; PInt 2]); GetDetails [PInt 1; PInt 2]]);
      reflexivity.
Defined.

(** ** The order of the output (C10) *)

Lemma fetched_records (self : remote) (depth : nat) :
  forall batch_list t fetches t',
    fetched self depth batch_list t fetches t' ->
    Forall (Forall (fun detail => keys detail = detail_keys)) fetches.
Proof.
  induction 1 as [t | batch_ids rest t t1 t2 batch_data others Hfetch _ IH].
  - constructor.
  - constructor; [|exact IH].
    eapply fetch_game_details_records. exact Hfetch.
Qed.

Lemma existsb_find {A : Type} (p : A -> bool) (xs : list A) :
  existsb p xs = match find p xs with Some _ => true | None => false end.
Proof.
  induction xs as [|x xs IH]; [reflexivity|].
  cbn. destruct (p x); [reflexivity | exact IH].
Qed.

Lemma merged_record_id (detail basic : dict) :
  keys detail = detail_keys ->
  dict_lookup "UniverseId" (merged_record detail basic) = dict_lookup "UniverseId" detail.
Proof.
  intros Hkeys. unfold merged_record. rewrite dict_lookup_app.
  destruct (dict_lookup_first _ _ _ Hkeys) as (v & ->). reflexivity.
Qed.

Lemma merged_batch_ids (game_data batch_data : list dict) :
  Forall (fun detail => keys detail = detail_keys) batch_data ->
  map (dict_lookup "UniverseId") (merged_batch game_data batch_data) =
  map (dict_lookup "UniverseId")
      (filter (fun detail => existsb (matches detail) game_data) batch_data).
Proof.
  unfold merged_batch.
  induction 1 as [|detail batch_data Hkeys _ IH]; [reflexivity|].
  cbn [flat_map filter]. rewrite map_app, IH, existsb_find.
  destruct (find (matches detail) game_data) as [basic|]; [|reflexivity].
  cbn [map app]. now rewrite merged_record_id.
Qed.

Lemma merged_batches_ids (game_data : list dict) (fetches : list (list dict)) :
  Forall (Forall (fun detail => keys detail = detail_keys)) fetches ->
  map (dict_lookup "UniverseId") (flat_map (merged_batch game_data) fetches) =
  map (dict_lookup "UniverseId")
      (filter (fun detail => existsb (matches detail) game_data) (List.concat fetches)).
Proof.
  induction 1 as [|batch_data fetches Hbatch _ IH]; [reflexivity|].
  cbn [flat_map List.concat].
  now rewrite map_app, filter_app, map_app, IH, merged_batch_ids.
Qed.

(** C10: the output of [scrape_games] is the concatenation, in batch
    order, of what each fetched batch contributes, and a batch contributes
    its matched detail records in the order the endpoint listed them; so
    the ids of the output are the ids of the fetched detail records that
    have a match, in fetch order.  That order can differ from the order of
    the basic records: basic ids 1, 2 with an endpoint listing 2 before 1
    give output ids 2, 1. *)
Theorem scrape_games_output_order :
  (forall (self : remote) (depth : nat) (game_data : list dict) (t : trace)
          (out : list dict) (t' : trace),
      scrape_games self depth game_data t = (Ok out, t') ->
      exists universe_ids fetches,
        mapM (fun game => dict_getitem game "UniverseId") game_data = Ok universe_ids
        /\ fetched self depth (batches batch_size universe_ids) t fetches t'
        /\ out = flat_map (merged_batch game_data) fetches
        /\ map (dict_lookup "UniverseId") out =
           map (dict_lookup "UniverseId")
               (filter (fun detail => existsb (matches detail) game_data)
                       (List.concat fetches)))
  /\
  (exists out t',
      scrape_games Mock.two_then_one 1 [Mock.basic 1 10; Mock.basic 2 20] []
        = (Ok out, t')
      /\ map (dict_lookup "UniverseId") [Mock.basic 1 10; Mock.basic 2 20]
         = [Some (PInt 1); Some (PInt 2)]
      /\ map (dict_lookup "UniverseId") out = [Some (PInt 2); Some (PInt 1)]
      /\ map (dict_lookup "PlayerCount") out = [Some (PInt 20); Some (PInt 10)]).
Proof.
  split.
  - intros self depth game_data t out t' H.
    apply scrape_games_spec in H as (ids & fetches & Hids & Hrun & ->).
    exists ids, fetches. repeat split; [exact Hids | exact Hrun |].
    apply merged_batches_ids. eapply fetched_records. exact Hrun.
  - eexists. eexists. split; [reflexivity|]. repeat split.
Qed.

Lemma scrape_games_output_order_witness :
  exists fetches,
    map (dict_lookup "UniverseId")
        (filter (fun detail =>
                   existsb (matches detail) [Mock.basic 1 10; Mock.basic 2 20])
                (List.concat fetches))
    = [Some (PInt 2); Some (PInt 1)].
Proof.
  destruct (proj1 scrape_games_output_order Mock.two_then_one 1%nat
              [Mock.basic 1 10; Mock.basic 2 20] [] _ _ eq_refl)
    as (ids & fetches & _ & _ & _ & Hids).
  exists fetches. rewrite <- Hids. reflexivity.
Defined.

(** ** The table handed to the writer *)

(** Every record [scrape_games] returns has the same fifteen fields, in
    the same order: the table built from them has no missing cell. *)
Lemma scrape_games_columns (self : remote) (depth : nat) (game_data : list dict)
    (t : trace) (out : list dict) (t' : trace) :
  scrape_games self depth game_data t = (Ok out, t') ->
  Forall (fun m => keys m = detail_keys ++ ["PlayerCount"; "Upvotes"; "Downvotes"]) out.
Proof.
  intros H.
  apply scrape_games_spec in H as (ids & fetches & _ & Hrun & ->).
  apply fetched_records in Hrun.
  apply Forall_forall. intros m Hm.
  apply in_flat_map in Hm as (batch_data & Hbatch & Hm).
  apply merged_batch_In in Hm as (detail & basic & Hdetail & _ & _ & ->).
  rewrite Forall_forall in Hrun. specialize (Hrun _ Hbatch).
  rewrite Forall_forall in Hrun. specialize (Hrun _ Hdetail).
  unfold merged_record, keys. rewrite map_app. fold (keys detail).
  now rewrite Hrun.
Qed.

(** ** The value model on small inputs *)

Example contains_is_substring_on_str :
  py_contains "data" (PStr "no data here") = Ok true.
Proof. reflexivity. Qed.

Example contains_raises_on_int : py_contains "data" (PInt 5) = Raise TypeError.
Proof. reflexivity. Qed.

Example eq_bool_int : py_eq (PBool true) (PInt 1) = true.
Proof. reflexivity. Qed.

Example eq_dict_any_order :
  py_eq (PDict [("a", PInt 1); ("b", PNone)]) (PDict [("b", PNone); ("a", PInt 1)]) = true.
Proof. reflexivity. Qed.

Example take_negative : py_take (-1) [PInt 1; PInt 2; PInt 3] = [PInt 1; PInt 2].
Proof. reflexivity. Qed.

Example range_120_by_50 : py_range 0 120 50 = [0; 50; 100]%nat.
Proof. reflexivity. Qed.

Example str_body_with_data_is_caught :
  details_try (mkResponse 200 (Some (PStr "the data"))) = Raise TypeError.
Proof. reflexivity. Qed.

Example null_creator_is_caught :
  details_try (mkResponse 200
                 (Some (PDict [("data", PList [PDict [("id", PInt 3); ("creator", PNone)]])])))
  = Raise AttributeError.
Proof. reflexivity. Qed.

(** A page that breaks at its second item keeps the first. *)
Example page_breaks_midway :
  collect_page (Mock.page [Mock.listed 2 "B" 5; PInt 3; Mock.listed 4 "D" 1] (Some "next")) []
  = ([basic_of [("universeId", PInt 2); ("name", PStr "B"); ("playerCount", PInt 5)]],
     Raise AttributeError).
Proof. reflexivity. Qed.

(** * Further properties *)

(** ** fetch_game_ids_from_api: the pages of a run *)

Lemma sorts_requests_app (t u : trace) :
  sorts_requests (t ++ u) = sorts_requests t ++ sorts_requests u.
Proof. unfold sorts_requests. apply flat_map_app. Qed.

Lemma games_loop_app (games : list pyval) :
  forall acc,
    games_loop games acc =
    (acc ++ fst (games_loop games []), snd (games_loop games [])).
Proof.
  induction games as [|game games IH]; intros acc.
  - cbn. now rewrite app_nil_r.
  - destruct (basic_record game) as [rec|e] eqn:Hrec.
    + apply basic_record_inv in Hrec as (g & -> & _).
      rewrite !games_loop_cons_dict.
      rewrite (IH (if truthy (identifier g) then acc ++ [basic_of g] else acc)).
      rewrite (IH (if truthy (identifier g) then [] ++ [basic_of g] else [])).
      cbn [fst snd]. destruct (truthy (identifier g)); [|reflexivity].
      now rewrite <- app_assoc.
    + rewrite !(games_loop_cons_raise _ _ _ _ Hrec). cbn. now rewrite app_nil_r.
Qed.

Lemma sorts_loop_app (sorts : list pyval) :
  forall acc,
    sorts_loop sorts acc =
    (acc ++ fst (sorts_loop sorts []), snd (sorts_loop sorts [])).
Proof.
  induction sorts as [|sort sorts IH]; intros acc.
  - cbn. now rewrite app_nil_r.
  - cbn [sorts_loop].
    destruct (games <- py_get sort "games" (PList []) ;; py_iter games) as [xs|e].
    2:{ cbn. now rewrite app_nil_r. }
    rewrite (games_loop_app xs acc), (games_loop_app xs []).
    destruct (snd (games_loop xs [])) as [u|e]; cbn [app].
    + rewrite (IH (acc ++ _)), (IH (fst (games_loop xs []))).
      cbn [fst snd]. now rewrite <- app_assoc.
    + reflexivity.
Qed.

(** A page adds the same records whatever was collected before it. *)
Lemma collect_page_app (data : pyval) (acc : list dict) :
  collect_page data acc =
  (acc ++ fst (collect_page data []), snd (collect_page data [])).
Proof.
  unfold collect_page.
  destruct (sorts <- py_get data "sorts" (PList []) ;; py_iter sorts) as [xs|e].
  2:{ cbn. now rewrite app_nil_r. }
  rewrite (sorts_loop_app xs acc).
  destruct (sorts_loop xs []) as [a1 [u|e]]; reflexivity.
Qed.

Lemma pages_loop_paged (self : remote) (session : string) (max_games : Z) :
  forall fuel acc token t acc' t',
    pages_loop self fuel session max_games acc token t = Some (acc', t') ->
    if (Z.of_nat (List.length acc) <? max_games)%Z then
      exists tokens records,
        paged self session (sorts_calls t)
          (if truthy token then Some token else None) tokens records
        /\ sorts_requests t' = sorts_requests t ++ map (pair session) tokens
        /\ details_requests t' = details_requests t
        /\ acc' = acc ++ records
    else acc' = acc /\ t' = t.
Proof.
  induction fuel as [|fuel IH]; intros acc token t acc' t' H; [discriminate|].
  cbn [pages_loop] in H.
  destruct (Z.of_nat (List.length acc) <? max_games)%Z; [|now injection H as <- <-].
  set (tok := if truthy token then Some token else None) in *.
  set (r := sorts_api self (sorts_calls t) session tok) in *.
  assert (Hlast : forall msg,
             page_records r = [] ->
             exists tokens records,
               paged self session (sorts_calls t) tok tokens records
               /\ sorts_requests ((t ++ [GetSorts session tok]) ++ [Print msg])
                  = sorts_requests t ++ map (pair session) tokens
               /\ details_requests ((t ++ [GetSorts session tok]) ++ [Print msg])
                  = details_requests t
               /\ acc = acc ++ records).
  { intros msg Hrec. exists [tok], (page_records r). split; [constructor|].
    rewrite !sorts_requests_app, !details_requests_app, Hrec. cbn.
    now rewrite !app_nil_r. }
  unfold page_records in Hlast.
  destruct (status_code r =? 200)%Z eqn:Hstatus; cbn [negb] in H.
  2:{ injection H as <- <-. now apply Hlast. }
  destruct (json_body r) as [data|] eqn:Hbody.
  2:{ injection H as <- <-. now apply Hlast. }
  clear Hlast.
  rewrite (collect_page_app data acc) in H.
  assert (Hrecords : page_records r = fst (collect_page data []))
    by (unfold page_records; now rewrite Hstatus, Hbody).
  destruct (snd (collect_page data [])) as [next|e] eqn:Hsnd.
  2:{ injection H as <- <-. exists [tok], (page_records r).
      split; [constructor|].
      rewrite !sorts_requests_app, !details_requests_app, Hrecords. cbn.
      now rewrite !app_nil_r. }
  destruct (truthy next) eqn:Hnext.
  2:{ injection H as <- <-. exists [tok], (page_records r).
      split; [constructor|].
      rewrite !sorts_requests_app, !details_requests_app, Hrecords. cbn.
      now rewrite !app_nil_r. }
  assert (Htoken : next_token r = Some next)
    by (unfold next_token; now rewrite Hstatus, Hbody, Hsnd, Hnext).
  apply IH in H. rewrite Hnext in H.
  rewrite !sorts_calls_app, !sorts_requests_app, !details_requests_app in H.
  cbn in H. rewrite !app_nil_r, Nat.add_0_r, Nat.add_1_r in H.
  destruct (Z.of_nat _ <? max_games)%Z.
  - destruct H as (tokens & records & Hpaged & Hreq & Hdet & ->).
    exists (tok :: tokens), (page_records r ++ records).
    split; [now apply paged_next with (next := next)|].
    rewrite Hreq, Hdet, Hrecords, <- !app_assoc. auto.
  - destruct H as [-> ->].
    exists [tok], (page_records r). split; [constructor|].
    rewrite !sorts_requests_app, !details_requests_app, Hrecords. cbn.
    now rewrite !app_nil_r.
Qed.

(** X1: a run of [fetch_game_ids_from_api] with a positive [max_games]
    sends its first request without a page token and every later request
    with the token the response before it handed on; it returns the
    records of the pages in the order they were served, cut to
    [max_games]; it sends nothing to the detail endpoint. *)
Theorem fetch_game_ids_from_api_pages :
  forall (self : remote) (fuel : nat) (session : string) (max_games : Z) (t : trace)
         (result : list dict) (t' : trace),
    (0 < max_games)%Z ->
    fetch_game_ids_from_api self fuel session max_games t = Some (result, t') ->
    exists tokens records,
      paged self session (sorts_calls t) None tokens records
      /\ sorts_requests t' = sorts_requests t ++ map (pair session) tokens
      /\ details_requests t' = details_requests t
      /\ result = py_take max_games records.
Proof.
  intros self fuel session max_games t result t' Hmax H.
  unfold fetch_game_ids_from_api in H.
  destruct (pages_loop _ _ _ _ _ _ _) as [[acc t1]|] eqn:Hloop; [|discriminate].
  injection H as <- <-.
  apply pages_loop_paged in Hloop. cbn [List.length truthy] in Hloop.
  apply Z.ltb_lt in Hmax. cbn [Z.of_nat] in Hloop. rewrite Hmax in Hloop.
  destruct Hloop as (tokens & records & Hpaged & Hreq & Hdet & ->).
  exists tokens, records. auto.
Qed.

Lemma fetch_game_ids_from_api_pages_witness :
  exists tokens records,
    paged Cases.by_token "s" 0 None tokens records
    /\ sorts_requests [GetSorts "s" None; Print (TotalCollected 1); Sleep 1;
                       GetSorts "s" (Some (PStr "t1")); Print NoMorePages]
       = map (pair "s") tokens
    /\ [basic_of [("universeId", PInt 1); ("name", PStr "A"); ("playerCount", PInt 5)];
        basic_of [("universeId", PInt 2); ("name", PStr "B"); ("playerCount", PInt 6)]]
       = py_take 10 records.
Proof.
  destruct (fetch_game_ids_from_api_pages Cases.by_token 5 "s" 10 [] _ _
              ltac:(lia) eq_refl)
    as (tokens & records & Hpaged & Hreq & _ & Hres).
  exists tokens, records. auto.
Defined.

(** ** fetch_game_ids_from_api: when the pages never end *)

Lemma last_page_next_token (r : response) :
  last_page r = false -> exists next, next_token r = Some next.
Proof.
  unfold last_page, next_token.
  destruct (status_code r =? 200)%Z; [cbn [negb orb] | discriminate].
  destruct (json_body r) as [data|]; [|discriminate].
  destruct (snd (collect_page data [])) as [next|e]; [|discriminate].
  destruct (truthy next); [eauto | discriminate].
Qed.

Lemma pages_loop_productive (self : remote) (session : string) (max_games : Z) :
  (forall c token,
      let r := sorts_api self c session token in
      last_page r = true \/ page_records r <> []) ->
  forall n fuel acc token t,
    (max_games - Z.of_nat (List.length acc) <= Z.of_nat n)%Z ->
    (n < fuel)%nat ->
    exists acc' t',
      pages_loop self fuel session max_games acc token t = Some (acc', t')
      /\ (sorts_calls t' <= sorts_calls t + n)%nat.
Proof.
  intros Hprod.
  assert (Hone : forall t tok msg n,
             (sorts_calls ((t ++ [GetSorts session tok]) ++ [Print msg])
              <= sorts_calls t + S n)%nat).
  { intros. rewrite !sorts_calls_app. cbn. lia. }
  induction n as [|n IH]; intros fuel acc token t Hn Hfuel;
    (destruct fuel as [|fuel]; [lia|]); cbn [pages_loop].
  - destruct (Z.ltb_spec (Z.of_nat (List.length acc)) max_games); [lia|].
    exists acc, t. split; [reflexivity | lia].
  - destruct (Z.ltb_spec (Z.of_nat (List.length acc)) max_games).
    2:{ exists acc, t. split; [reflexivity | lia]. }
    set (tok := if truthy token then Some token else None).
    specialize (Hprod (sorts_calls t) tok). cbn zeta in Hprod.
    set (r := sorts_api self (sorts_calls t) session tok) in *.
    unfold last_page, page_records in Hprod.
    destruct (status_code r =? 200)%Z; cbn [negb orb] in *; [|eauto].
    destruct (json_body r) as [data|]; [|eauto].
    rewrite (collect_page_app data acc).
    destruct (snd (collect_page data [])) as [next|e]; [|eauto].
    destruct (truthy next); [|eauto].
    destruct Hprod as [Hlast|Hrec]; [discriminate|].
    destruct (IH fuel (acc ++ fst (collect_page data [])) next
                ((t ++ [GetSorts session tok]) ++
                 [Print (TotalCollected
                           (List.length (acc ++ fst (collect_page data []))));
                  Sleep 1]))
      as (acc' & t' & Hrun & Hcalls).
    + rewrite length_app.
      destruct (fst (collect_page data [])); [contradiction|]. cbn [List.length]. lia.
    + lia.
    + exists acc', t'. split; [exact Hrun|].
      rewrite !sorts_calls_app in Hcalls. cbn in Hcalls. lia.
Qed.

(** X2: when every listing response either is a last page or contributes
    at least one record, [fetch_game_ids_from_api] returns, and it has
    sent at most [max_games] requests by then: any fuel above [max_games]
    is enough. *)
Theorem fetch_game_ids_from_api_returns_when_pages_contribute :
  forall (self : remote) (session : string) (max_games : Z) (t : trace),
    (forall c token,
        let r := sorts_api self c session token in
        last_page r = true \/ page_records r <> []) ->
    forall fuel, (Z.to_nat max_games < fuel)%nat ->
    exists result t',
      fetch_game_ids_from_api self fuel session max_games t = Some (result, t')
      /\ (sorts_calls t' <= sorts_calls t + Z.to_nat max_games)%nat.
Proof.
  intros self session max_games t Hprod fuel Hfuel.
  destruct (pages_loop_productive self session max_games Hprod
              (Z.to_nat max_games) fuel [] PNone t)
    as (acc & t1 & Hloop & Hcalls).
  { cbn [List.length]. lia. }
  { exact Hfuel. }
  exists (py_take max_games acc), t1. split; [|exact Hcalls].
  unfold fetch_game_ids_from_api. now rewrite Hloop.
Qed.

Lemma fetch_game_ids_from_api_returns_when_pages_contribute_witness :
  exists result t',
    fetch_game_ids_from_api Cases.endless 4 "s" 3 [] = Some (result, t')
    /\ (sorts_calls t' <= 3)%nat.
Proof.
  apply (fetch_game_ids_from_api_returns_when_pages_contribute
           Cases.endless "s" 3 []).
  - intros c token. right. cbn. discriminate.
  - cbn. lia.
Defined.

(** The endless listing, asked for three records. *)
Example endless_listing_stops_at_three :
  option_map (fun out => List.length (fst out))
    (fetch_game_ids_from_api Cases.endless 4 "s" 3 []) = Some 3%nat.
Proof. reflexivity. Qed.

(** ** fetch_game_ids_from_api: bounds and shape of the result *)

(** X3: with [max_games] zero or negative, [fetch_game_ids_from_api]
    sends no request, logs nothing and returns the empty list. *)
Theorem fetch_game_ids_from_api_nothing_asked :
  forall (self : remote) (fuel : nat) (session : string) (max_games : Z) (t : trace),
    (max_games <= 0)%Z ->
    fetch_game_ids_from_api self (S fuel) session max_games t = Some ([], t).
Proof.
  intros self fuel session max_games t Hmax.
  unfold fetch_game_ids_from_api. cbn [pages_loop List.length Z.of_nat].
  destruct (Z.ltb_spec 0 max_games) as [Hlt|_]; [lia|].
  unfold py_take. destruct (0 <=? max_games)%Z; now rewrite firstn_nil.
Qed.

Lemma fetch_game_ids_from_api_nothing_asked_witness :
  fetch_game_ids_from_api Cases.endless 1 "s" (-5) [] = Some ([], []).
Proof.
  apply (fetch_game_ids_from_api_nothing_asked Cases.endless 0 "s" (-5) []). lia.
Defined.

(** X4: every record [fetch_game_ids_from_api] returns has exactly the
    fields UniverseId, Name, PlayerCount, Upvotes and Downvotes, in this
    order. *)
Theorem fetch_game_ids_from_api_fields :
  forall (self : remote) (fuel : nat) (session : string) (max_games : Z) (t : trace)
         (result : list dict) (t' : trace),
    fetch_game_ids_from_api self fuel session max_games t = Some (result, t') ->
    Forall (fun r => keys r = basic_keys) result.
Proof.
  intros self fuel session max_games t result t' H.
  unfold fetch_game_ids_from_api in H.
  destruct (pages_loop _ _ _ _ _ _ _) as [[acc t1]|] eqn:Hloop; [|discriminate].
  injection H as <- _.
  apply pages_loop_kept in Hloop; [|constructor].
  apply Forall_forall. intros r Hr. apply py_take_incl in Hr.
  rewrite Forall_forall in Hloop.
  destruct (Hloop r Hr) as (g & -> & _). reflexivity.
Qed.

Lemma fetch_game_ids_from_api_fields_witness :
  Forall (fun r => keys r = basic_keys)
    [basic_of [("universeId", PInt 1); ("name", PStr "A"); ("playerCount", PInt 5)];
     basic_of [("universeId", PInt 2); ("name", PStr "B"); ("playerCount", PInt 6)]].
Proof.
  apply (fetch_game_ids_from_api_fields Cases.by_token 5 "s" 10 [] _
           [GetSorts "s" None; Print (TotalCollected 1); Sleep 1;
            GetSorts "s" (Some (PStr "t1")); Print NoMorePages]).
  reflexivity.
Defined.

(** ** fetch_game_details: what a call leaves in the trace *)

(** X5: a call of [fetch_game_details] that returns after [k] retries has
    sent [k+1] requests to the detail endpoint, every one with the ids it
    was called with, has slept 5 seconds per retry and no more, and has
    sent nothing to the listing endpoint. *)
Theorem fetch_game_details_footprint :
  forall (self : remote) (ids : list pyval) (depth : nat) (t : trace)
         (v : retval) (t' : trace),
    fetch_game_details self depth ids t = (Ok v, t') ->
    exists k,
      (k < depth)%nat
      /\ details_requests t' = details_requests t ++ repeat ids (S k)
      /\ slept t' = (slept t + 5 * k)%nat
      /\ sorts_requests t' = sorts_requests t.
Proof.
  intros self ids.
  induction depth as [|depth IH]; intros t v t' H; [discriminate|].
  cbn [fetch_game_details] in H.
  destruct (status_code _ =? 429)%Z.
  - apply IH in H as (k & Hk & Hreq & Hslept & Hsorts).
    exists (S k). split; [lia|].
    rewrite Hreq, Hslept, Hsorts.
    rewrite !details_requests_app, !slept_app, !sorts_requests_app. cbn.
    rewrite !app_nil_r, <- app_assoc. repeat split; lia.
  - exists 0%nat. split; [lia|].
    destruct (negb _); [|destruct (details_try _)]; injection H as _ <-;
      rewrite ?details_requests_app, ?slept_app, ?sorts_requests_app; cbn;
      rewrite ?app_nil_r; repeat split; lia.
Qed.

Lemma fetch_game_details_footprint_witness :
  exists k,
    (k < 3)%nat
    /\ details_requests
         [GetDetails [PInt 7]; Print RateLimitHit; Sleep 5;
          GetDetails [PInt 7]; Print RateLimitHit; Sleep 5; GetDetails [PInt 7]]
       = [] ++ repeat [PInt 7] (S k)
    /\ slept
         [GetDetails [PInt 7]; Print RateLimitHit; Sleep 5;
          GetDetails [PInt 7]; Print RateLimitHit; Sleep 5; GetDetails [PInt 7]]
       = (0 + 5 * k)%nat.
Proof.
  destruct (fetch_game_details_footprint
              (Mock.rate_limited_twice (PDict [("data", PList [])])) [PInt 7] 3 []
              (RList []) _ eq_refl)
    as (k & Hk & Hreq & Hslept & _).
  exists k. auto.
Defined.

(** ** fetch_game_details: the mapping of a payload *)

Lemma detail_record_ok (game : pyval) :
  entry_ok game = true -> detail_record game = Ok (detail_of game).
Proof.
  destruct game as [| | | | |g]; try discriminate.
  unfold entry_ok, detail_record, detail_of, developer_of. cbn.
  change (dict_get g "creator" (PDict []))
    with (match dict_lookup "creator" g with Some v => v | None => PDict [] end).
  destruct (dict_lookup "creator" g) as [[| | | | |creator]|]; try discriminate;
    reflexivity.
Qed.

Lemma detail_record_rejects (game : pyval) :
  entry_ok game = false -> detail_record game = Raise AttributeError.
Proof.
  destruct game as [| | | | |g]; try reflexivity.
  unfold entry_ok, detail_record. cbn.
  change (dict_get g "creator" (PDict []))
    with (match dict_lookup "creator" g with Some v => v | None => PDict [] end).
  destruct (dict_lookup "creator" g) as [[| | | | |creator]|]; try discriminate;
    reflexivity.
Qed.

Lemma mapM_detail_record (games : list pyval) :
  mapM detail_record games =
  if forallb entry_ok games then Ok (map detail_of games)
  else Raise AttributeError.
Proof.
  induction games as [|game games IH]; [reflexivity|].
  cbn [mapM forallb map].
  destruct (entry_ok game) eqn:Hgame.
  - rewrite (detail_record_ok _ Hgame). cbn [bind andb]. rewrite IH.
    now destruct (forallb entry_ok games).
  - now rewrite (detail_record_rejects _ Hgame).
Qed.

(** X6: on a 200 response whose body is an object with a list under
    ["data"], [fetch_game_details] returns one DetailRecord per entry, in
    the order of the list and with the defaults for absent fields, when
    every entry is an object whose creator is absent or an object; a
    single entry that is not makes it return the empty list for the whole
    batch. *)
Theorem fetch_game_details_payload :
  forall (self : remote) (depth : nat) (ids : list pyval) (t : trace)
         (d : dict) (games : list pyval),
    let r := details_api self (details_calls t) ids in
    status_code r = 200%Z ->
    json_body r = Some (PDict d) ->
    dict_lookup "data" d = Some (PList games) ->
    fetch_game_details self (S depth) ids t =
    if forallb entry_ok games then
      (Ok (RList (map detail_of games)), t ++ [GetDetails ids])
    else
      (Ok (RList []), t ++ [GetDetails ids; Print (ErrorParsing AttributeError)]).
Proof.
  intros self depth ids t d games r Hstatus Hbody Hdata.
  assert (Htry : details_try r =
                 if forallb entry_ok games then Ok (RList (map detail_of games))
                 else Raise AttributeError).
  { unfold details_try. rewrite Hbody. cbn. unfold dict_getitem. rewrite Hdata. cbn.
    rewrite mapM_detail_record. now destruct (forallb entry_ok games). }
  destruct (forallb entry_ok games).
  - now apply fetch_game_details_ok.
  - now apply fetch_game_details_parse_error.
Qed.

Lemma fetch_game_details_payload_witness :
  fetch_game_details
    (Mock.details_always
       (PDict [("data", PList [Mock.game 1 "One";
                               PDict [("id", PInt 2); ("creator", PStr "someone")]])]))
    1 [PInt 1; PInt 2] []
  = (Ok (RList []),
     [GetDetails [PInt 1; PInt 2]; Print (ErrorParsing AttributeError)]).
Proof.
  exact (fetch_game_details_payload
           (Mock.details_always
              (PDict [("data", PList [Mock.game 1 "One";
                                      PDict [("id", PInt 2); ("creator", PStr "someone")]])]))
           0 [PInt 1; PInt 2] []
           [("data", PList [Mock.game 1 "One";
                            PDict [("id", PInt 2); ("creator", PStr "someone")]])]
           [Mock.game 1 "One"; PDict [("id", PInt 2); ("creator", PStr "someone")]]
           eq_refl eq_refl eq_refl).
Defined.

(** ** scrape_games: how it can fail *)

Lemma mapM_universe_ids_raises (game_data : list dict) :
  (exists basic, In basic game_data /\ dict_lookup "UniverseId" basic = None) ->
  mapM (fun game => dict_getitem game "UniverseId") game_data = Raise KeyError.
Proof.
  induction game_data as [|game game_data IH]; intros (basic & Hin & Hnone).
  - contradiction.
  - cbn [mapM]. unfold dict_getitem at 1.
    destruct (dict_lookup "UniverseId" game) as [v|] eqn:Hgame.
    + destruct Hin as [->|Hin]; [congruence|].
      cbn [bind]. rewrite IH by eauto. reflexivity.
    + reflexivity.
Qed.


(** X7: when a basic record has no UniverseId, [scrape_games] raises
    KeyError before anything is sent or logged, however many records
    before it are complete. *)
Theorem scrape_games_missing_id :
  forall (self : remote) (depth : nat) (game_data : list dict) (t : trace),
    (exists basic, In basic game_data /\ dict_lookup "UniverseId" basic = None) ->
    scrape_games self depth game_data t = (Raise KeyError, t).
Proof.
  intros self depth game_data t H.
  unfold scrape_games. now rewrite mapM_universe_ids_raises.
Qed.

Lemma scrape_games_missing_id_witness :
  scrape_games Mock.echo 1 [Mock.basic 1 10; Cases.nameless; Mock.basic 3 30] []
  = (Raise KeyError, []).
Proof.
  apply (scrape_games_missing_id Mock.echo 1
           [Mock.basic 1 10; Cases.nameless; Mock.basic 3 30] []).
  exists Cases.nameless. split; [right; now left | reflexivity].
Defined.

Lemma scrape_loop_raises (self : remote) (depth : nat) (game_data : list dict)
    (universe_ids : list pyval) :
  mapM (fun game => dict_getitem game "UniverseId") game_data = Ok universe_ids ->
  forall starts games_data t e t',
    scrape_loop self depth game_data universe_ids starts games_data t = (Raise e, t') ->
    exists batch_ids t0,
      In batch_ids (map (fun i => py_slice universe_ids i (i + batch_size)) starts)
      /\ ((e = TypeError /\ fetch_game_details self depth batch_ids t0 = (Ok RNone, t'))
          \/ (e = RecursionError
              /\ fetch_game_details self depth batch_ids t0 = (Raise RecursionError, t'))).
Proof.
  intros Hids.
  induction starts as [|i starts IH]; intros games_data t e t' H; [discriminate|].
  cbn [scrape_loop] in H.
  destruct (fetch_game_details _ _ _ _) as [[v|e0] t1] eqn:Hfetch.
  - destruct v as [batch_data|]; cbn [iter_retval bind] in H.
    + rewrite (merge_batch_spec _ _ Hids) in H
        by (eapply fetch_game_details_records; exact Hfetch).
      apply IH in H as (batch_ids & t0 & Hin & Hcase).
      exists batch_ids, t0. split; [now right | exact Hcase].
    + injection H as <- <-.
      eexists. eexists. split; [now left|]. left. split; [reflexivity | exact Hfetch].
  - injection H as <- <-.
    pose proof (fetch_game_details_raises _ _ _ _ _ _ Hfetch) as ->.
    eexists. eexists. split; [now left|]. right. split; [reflexivity | exact Hfetch].
Qed.



(** ** scrape_games: how many batches, of what size *)

Lemma range_from_below (stop step : nat) :
  forall fuel start, Forall (fun i => (i < stop)%nat) (range_from fuel start stop step).
Proof.
  induction fuel as [|fuel IH]; intros start; cbn [range_from]; [constructor|].
  destruct (Nat.ltb_spec start stop); [|constructor].
  constructor; [assumption | apply IH].
Qed.

Lemma range_from_length (stop step : nat) :
  (0 < step)%nat ->
  forall fuel start,
    (stop - start <= fuel)%nat ->
    List.length (range_from fuel start stop step) = ((stop - start + step - 1) / step)%nat.
Proof.
  intros Hstep.
  induction fuel as [|fuel IH]; intros start Hfuel; cbn [range_from].
  - replace (stop - start + step - 1)%nat with (step - 1)%nat by lia.
    rewrite Nat.div_small by lia. reflexivity.
  - destruct (Nat.ltb_spec start stop) as [Hlt|Hge].
    + cbn [List.length]. rewrite IH by lia.
      replace (stop - start + step - 1)%nat with ((stop - start - 1) + 1 * step)%nat by lia.
      rewrite Nat.div_add by lia.
      destruct (Nat.le_gt_cases step (stop - start)) as [Hbig|Hsmall].
      * replace (stop - (start + step) + step - 1)%nat with (stop - start - 1)%nat by lia.
        lia.
      * replace (stop - (start + step) + step - 1)%nat with (step - 1)%nat by lia.
        rewrite !Nat.div_small by lia. reflexivity.
    + replace (stop - start + step - 1)%nat with (step - 1)%nat by lia.
      rewrite Nat.div_small by lia. reflexivity.
Qed.

Lemma batches_count (universe_ids : list pyval) :
  List.length (batches batch_size universe_ids)
  = ((List.length universe_ids + 49) / 50)%nat.
Proof.
  unfold batches, py_range. rewrite length_map.
  rewrite range_from_length by (unfold batch_size; lia).
  unfold batch_size. f_equal. lia.
Qed.

Lemma batches_sizes (universe_ids : list pyval) :
  Forall (fun batch => (1 <= List.length batch <= 50)%nat)
         (batches batch_size universe_ids).
Proof.
  unfold batches, py_range. apply Forall_map.
  eapply Forall_impl; [|apply range_from_below].
  intros i Hi. cbn beta in Hi. unfold py_slice, batch_size.
  rewrite length_firstn, length_skipn. lia.
Qed.

(** X9: a normal run of [scrape_games] over n basic records announces
    and fetches n/50 batches, rounded up, in order: [fetch_game_details]
    is called once for each and returns a list for each; none of the
    batches is empty and none has more than 50 ids; over no records
    nothing is announced or fetched. *)
Theorem scrape_games_batch_count :
  forall (self : remote) (depth : nat) (game_data : list dict) (t : trace)
         (out : list dict) (t' : trace),
    scrape_games self depth game_data t = (Ok out, t') ->
    exists announced fetches,
      batches_fetched t' = batches_fetched t ++ announced
      /\ fetched self depth announced t fetches t'
      /\ List.length fetches = List.length announced
      /\ List.length announced = ((List.length game_data + 49) / 50)%nat
      /\ Forall (fun batch => (1 <= List.length batch <= 50)%nat) announced
      /\ (game_data = [] -> t' = t).
Proof.
  intros self depth game_data t out t' H.
  assert (Hempty : game_data = [] -> t' = t).
  { intros ->. cbn in H. now injection H as _ <-. }
  apply scrape_games_spec in H as (ids & fetches & Hids & Hrun & _).
  destruct (fetched_batches _ _ _ _ _ _ Hrun) as [Hannounced Hcount].
  exists (batches batch_size ids), fetches.
  split; [exact Hannounced|]. split; [exact Hrun|]. split; [exact Hcount|].
  split; [|split; [apply batches_sizes | exact Hempty]].
  rewrite batches_count. now rewrite (mapM_length _ _ _ Hids).
Qed.

Lemma scrape_games_batch_count_witness :
  exists announced fetches,
    [[PInt 1; PInt 2]] = [] ++ announced
    /\ fetched Mock.two_then_one 1 announced [] fetches
         [Print (FetchingIds [PInt 1; PInt 2]); GetDetails [PInt 1; PInt 2]; Sleep 1]
    /\ List.length fetches = List.length announced
    /\ List.length announced = ((2 + 49) / 50)%nat
    /\ Forall (fun batch => (1 <= List.length batch <= 50)%nat) announced.
Proof.
  destruct (scrape_games_batch_count Mock.two_then_one 1
              [Mock.basic 1 10; Mock.basic 2 20] [] _ _ eq_refl)
    as (announced & fetches & Hannounced & Hrun & Hcount & Hlen & Hsizes & _).
  exists announced, fetches. auto.
Defined.

(** ** scrape_games: an endpoint that never rate-limits *)





(** ** scrape_games: how many records come out *)

(** X11: a normal run of [scrape_games] returns exactly one record for
    each fetched detail record that has a match among the basic records,
    a detail record listed twice counting twice; so never more records
    than detail records were fetched. *)
Theorem scrape_games_output_count :
  forall (self : remote) (depth : nat) (game_data : list dict) (t : trace)
         (out : list dict) (t' : trace),
    scrape_games self depth game_data t = (Ok out, t') ->
    exists universe_ids fetches,
      fetched self depth (batches batch_size universe_ids) t fetches t'
      /\ List.length out =
         List.length (filter (fun detail => existsb (matches detail) game_data)
                             (List.concat fetches))
      /\ (List.length out <= List.length (List.concat fetches))%nat.
Proof.
  intros self depth game_data t out t' H.
  apply scrape_games_spec in H as (ids & fetches & _ & Hrun & ->).
  exists ids, fetches. split; [exact Hrun|].
  pose proof (merged_batches_ids game_data fetches (fetched_records _ _ _ _ _ _ Hrun))
    as Hids.
  apply (f_equal (@List.length _)) in Hids. rewrite !length_map in Hids.
  split; [exact Hids|].
  rewrite Hids. apply filter_length_le.
Qed.

Lemma scrape_games_output_count_witness :
  exists fetches,
    List.length [merged_record Mock.detail_one (Mock.basic 1 10)]
    = List.length (filter (fun detail =>
                             existsb (matches detail) [Mock.basic 1 10; Mock.basic 2 20])
                          (List.concat fetches)).
Proof.
  destruct (scrape_games_output_count
              (Mock.details_always (PDict [("data", PList [Mock.game 1 "One"])]))
              1 [Mock.basic 1 10; Mock.basic 2 20] []
              [merged_record Mock.detail_one (Mock.basic 1 10)] _ eq_refl)
    as (ids & fetches & _ & Hcount & _).
  exists fetches. exact Hcount.
Defined.

(** ** The whole program *)

Lemma fetch_game_ids_from_api_kept (self : remote) (fuel : nat) (session : string)
    (max_games : Z) (t : trace) (result : list dict) (t' : trace) :
  fetch_game_ids_from_api self fuel session max_games t = Some (result, t') ->
  Forall kept result.
Proof.
  unfold fetch_game_ids_from_api. intros H.
  destruct (pages_loop _ _ _ _ _ _ _) as [[acc t1]|] eqn:Hloop; [|discriminate].
  injection H as <- _.
  apply pages_loop_kept in Hloop; [|constructor].
  apply Forall_forall. intros r Hr. apply py_take_incl in Hr.
  rewrite Forall_forall in Hloop. now apply Hloop.
Qed.

Lemma kept_universe_ids (records : list dict) :
  Forall kept records ->
  exists universe_ids,
    mapM (fun game => dict_getitem game "UniverseId") records = Ok universe_ids.
Proof.
  induction 1 as [|r records (g & -> & _) _ (ids & IH)].
  - exists []. reflexivity.
  - exists (identifier g :: ids). cbn [mapM].
    unfold dict_getitem at 1. rewrite basic_of_identifier. cbn [bind].
    now rewrite IH.
Qed.

Lemma pages_loop_batches_fetched (self : remote) (session : string) (max_games : Z) :
  forall fuel acc token t acc' t',
    pages_loop self fuel session max_games acc token t = Some (acc', t') ->
    batches_fetched t' = batches_fetched t.
Proof.
  induction fuel as [|fuel IH]; intros acc token t acc' t' H; [discriminate|].
  cbn [pages_loop] in H.
  destruct (Z.of_nat (List.length acc) <? max_games)%Z; [|now injection H as _ <-].
  assert (Hone : forall msg,
             batches_fetched ((t ++ [GetSorts session
                                       (if truthy token then Some token else None)])
                              ++ [Print msg]) = batches_fetched t
             \/ exists ids, msg = FetchingIds ids).
  { intros msg. destruct msg; [left; rewrite !batches_fetched_app; cbn;
                               now rewrite !app_nil_r ..|right; eauto]. }
  destruct (negb _).
  { injection H as _ <-. destruct (Hone (FailedToFetch
      (status_code (sorts_api self (sorts_calls t) session
                      (if truthy token then Some token else None)))))
      as [E|(ids & E)]; [exact E | discriminate]. }
  destruct (json_body _) as [data|].
  2:{ injection H as _ <-.
      destruct (Hone (ErrorParsing JSONDecodeError)) as [E|(ids & E)];
        [exact E | discriminate]. }
  destruct (collect_page data acc) as [acc1 [next|e]].
  2:{ injection H as _ <-.
      destruct (Hone (ErrorParsing e)) as [E|(ids & E)]; [exact E | discriminate]. }
  destruct (truthy next).
  - apply IH in H. rewrite H, !batches_fetched_app. cbn. now rewrite !app_nil_r.
  - injection H as _ <-.
    destruct (Hone NoMorePages) as [E|(ids & E)]; [exact E | discriminate].
Qed.

(** X12: the program never fails on a missing identifier: the records
    the listing step hands to [scrape_games] all carry a UniverseId, so
    line 115 reads every one of them and neither [scrape_games] nor the
    main block ends in KeyError. *)
Theorem main_never_KeyError :
  forall (scraper : remote) (fuel depth : nat) (t : trace)
         (basic_game_data : list dict) (t1 : trace),
    fetch_game_ids_from_api scraper fuel session_id 60000 t = Some (basic_game_data, t1) ->
    (exists universe_ids,
        mapM (fun game => dict_getitem game "UniverseId") basic_game_data = Ok universe_ids)
    /\ (forall t', scrape_games scraper depth basic_game_data t1 <> (Raise KeyError, t'))
    /\ (forall t', main scraper fuel depth t <> Some (Raise KeyError, t')).
Proof.
  intros scraper fuel depth t basics t1 Hfetch.
  pose proof (fetch_game_ids_from_api_kept _ _ _ _ _ _ _ Hfetch) as Hkept.
  destruct (kept_universe_ids _ Hkept) as (ids & Hids).
  assert (Hscrape : forall t', scrape_games scraper depth basics t1 <> (Raise KeyError, t')).
  { intros t' H. unfold scrape_games in H. rewrite Hids in H.
    apply (scrape_loop_raises _ _ _ _ Hids) in H
      as (batch_ids & t0 & _ & [[He _]|[He _]]); discriminate. }
  split; [eauto|]. split; [exact Hscrape|].
  intros t' H. unfold main in H. rewrite Hfetch in H.
  injection H as H. exact (Hscrape t' H).
Qed.

Lemma main_never_KeyError_witness :
  (exists universe_ids,
      mapM (fun game => dict_getitem game "UniverseId")
        [basic_of [("universeId", PInt 1); ("name", PStr "A"); ("playerCount", PInt 5)];
         basic_of [("universeId", PInt 2); ("name", PStr "B"); ("playerCount", PInt 6)]]
      = Ok universe_ids)
  /\ main Cases.by_token 5 1 [] <> Some (Raise KeyError, []).
Proof.
  destruct (main_never_KeyError Cases.by_token 5 1 []
              [basic_of [("universeId", PInt 1); ("name", PStr "A"); ("playerCount", PInt 5)];
               basic_of [("universeId", PInt 2); ("name", PStr "B"); ("playerCount", PInt 6)]]
              [GetSorts session_id None; Print (TotalCollected 1); Sleep 1;
               GetSorts session_id (Some (PStr "t1")); Print NoMorePages]
              eq_refl)
    as (Hids & _ & Hmain).
  split; [exact Hids | apply Hmain].
Defined.

(** X13: in a normal run of the program every output record takes its
    PlayerCount, Upvotes and Downvotes from a record the listing step
    returned whose UniverseId equals its own; these three fields are
    always present there, so the default 0 of lines 126-128 is never
    used. *)
Theorem main_counts_come_from_listing :
  forall (scraper : remote) (fuel depth : nat) (t : trace) (out : list dict) (t' : trace),
    main scraper fuel depth t = Some (Ok out, t') ->
    exists basic_game_data t1,
      fetch_game_ids_from_api scraper fuel session_id 60000 t = Some (basic_game_data, t1)
      /\ scrape_games scraper depth basic_game_data t1 = (Ok out, t')
      /\ forall m, In m out ->
         exists basic uid_basic uid players upvotes downvotes,
           In basic basic_game_data
           /\ dict_lookup "UniverseId" basic = Some uid_basic
           /\ dict_lookup "UniverseId" m = Some uid
           /\ py_eq uid_basic uid = true
           /\ dict_lookup "PlayerCount" basic = Some players
           /\ dict_lookup "PlayerCount" m = Some players
           /\ dict_lookup "Upvotes" basic = Some upvotes
           /\ dict_lookup "Upvotes" m = Some upvotes
           /\ dict_lookup "Downvotes" basic = Some downvotes
           /\ dict_lookup "Downvotes" m = Some downvotes.
Proof.
  intros scraper fuel depth t out t' H. unfold main in H.
  destruct (fetch_game_ids_from_api _ _ _ _ _) as [[basics t1]|] eqn:Hfetch;
    [|discriminate].
  injection H as H.
  exists basics, t1. split; [reflexivity|]. split; [exact H|].
  apply fetch_game_ids_from_api_kept in Hfetch.
  apply scrape_games_spec in H as (ids & fetches & _ & Hrun & ->).
  apply fetched_records in Hrun.
  intros m Hm.
  apply in_flat_map in Hm as (batch_data & Hbatch & Hm).
  apply merged_batch_In in Hm as (detail & basic & Hdetail & Hbasic & Hmatch & ->).
  rewrite Forall_forall in Hrun. specialize (Hrun _ Hbatch).
  rewrite Forall_forall in Hrun. specialize (Hrun _ Hdetail).
  rewrite Forall_forall in Hfetch. destruct (Hfetch _ Hbasic) as (g & -> & _).
  destruct (dict_lookup_first _ _ _ Hrun) as (uid & Huid).
  assert (Hfresh : forall k, In k ["PlayerCount"; "Upvotes"; "Downvotes"] ->
                             dict_lookup k detail = None).
  { intros k Hk. apply dict_lookup_None. rewrite Hrun. now apply not_in_detail_keys. }
  exists (basic_of g), (identifier g), uid,
         (dict_get g "playerCount" (PInt 0)),
         (dict_get g "totalUpVotes" (PInt 0)),
         (dict_get g "totalDownVotes" (PInt 0)).
  split; [exact Hbasic|]. split; [reflexivity|].
  split; [now rewrite merged_record_id|].
  split; [unfold matches in Hmatch; now rewrite basic_of_identifier, Huid in Hmatch|].
  unfold merged_record. rewrite !dict_lookup_app, !Hfresh by (cbn; auto).
  repeat split.
Qed.

Lemma main_counts_come_from_listing_witness :
  exists basic_game_data t1,
    fetch_game_ids_from_api Cases.by_token 5 session_id 60000 []
      = Some (basic_game_data, t1)
    /\ List.length basic_game_data = 2%nat.
Proof.
  destruct (main Cases.by_token 5 1 []) as [[[out|e] t']|] eqn:Hmain;
    [|vm_compute in Hmain; discriminate..].
  destruct (main_counts_come_from_listing Cases.by_token 5 1 [] out t' Hmain)
    as (basics & t1 & Hfetch & _ & _).
  exists basics, t1. split; [exact Hfetch|].
  vm_compute in Hfetch. injection Hfetch as <- _. reflexivity.
Defined.

(** X14: the program announces at most 1200 batches: the listing step
    returns at most 60000 records and announces none itself. *)
Theorem main_at_most_1200_batches :
  forall (scraper : remote) (fuel depth : nat) (t : trace) (out : list dict) (t' : trace),
    main scraper fuel depth t = Some (Ok out, t') ->
    (List.length (batches_fetched t') <= List.length (batches_fetched t) + 1200)%nat.
Proof.
  intros scraper fuel depth t out t' H. unfold main in H.
  destruct (fetch_game_ids_from_api _ _ _ _ _) as [[basics t1]|] eqn:Hfetch;
    [|discriminate].
  assert (Hlen : (Z.of_nat (List.length basics) <= 60000)%Z).
  { unfold fetch_game_ids_from_api in Hfetch.
    destruct (pages_loop _ _ _ _ _ _ _) as [[acc t2]|]; [|discriminate].
    injection Hfetch as <- _. apply py_take_length. lia. }
  assert (Hsame : batches_fetched t1 = batches_fetched t).
  { unfold fetch_game_ids_from_api in Hfetch.
    destruct (pages_loop _ _ _ _ _ _ _) as [[acc t2]|] eqn:Hloop; [|discriminate].
    injection Hfetch as _ <-. eapply pages_loop_batches_fetched. exact Hloop. }
  injection H as H.
  apply scrape_games_spec in H as (ids & fetches & Hids & Hrun & _).
  apply fetched_batches in Hrun as [Hannounced _].
  rewrite Hannounced, Hsame, length_app, batches_count, (mapM_length _ _ _ Hids).
  apply Nat.add_le_mono_l. apply Nat.lt_succ_r.
  apply Nat.Div0.div_lt_upper_bound. lia.
Qed.

Lemma main_at_most_1200_batches_witness :
  (List.length
     (batches_fetched
        [GetSorts session_id None; Print (TotalCollected 1); Sleep 1;
         GetSorts session_id (Some (PStr "t1")); Print NoMorePages;
         Print (FetchingIds [PInt 1; PInt 2]); GetDetails [PInt 1; PInt 2]; Sleep 1])
   <= 0 + 1200)%nat.
Proof.
  apply (main_at_most_1200_batches Cases.by_token 5 1 []
           [merged_record (detail_of (PDict [("id", PInt 1)])) 
              (basic_of [("universeId", PInt 1); ("name", PStr "A"); ("playerCount", PInt 5)]);
            merged_record (detail_of (PDict [("id", PInt 2)]))
              (basic_of [("universeId", PInt 2); ("name", PStr "B"); ("playerCount", PInt 6)])]).
  reflexivity.
Defined.

(** ** fetch_game_details: when the result is [None] *)

(** X15: [fetch_game_details] returns [None] only after a 200 response
    whose body decodes to a value on which the test ["data" in data] is
    false without raising: an object without that member, a list without
    that string, or a string without that substring.  Every other value
    a call returns is a list. *)
Theorem fetch_game_details_None_only_without_data :
  forall (self : remote) (ids : list pyval) (depth : nat) (t t' : trace),
    fetch_game_details self depth ids t = (Ok RNone, t') ->
    exists c data,
      status_code (details_api self c ids) = 200%Z
      /\ json_body (details_api self c ids) = Some data
      /\ py_contains "data" data = Ok false
      /\ ((exists d, data = PDict d /\ dict_lookup "data" d = None)
          \/ (exists xs, data = PList xs
                         /\ existsb (fun x => py_eq (PStr "data") x) xs = false)
          \/ (exists s, data = PStr s /\ String.index 0 "data" s = None)).
Proof.
  intros self ids.
  induction depth as [|depth IH]; intros t t' H; [discriminate|].
  cbn [fetch_game_details] in H.
  destruct (status_code _ =? 429)%Z; [now apply IH in H|].
  destruct (status_code _ =? 200)%Z eqn:Hstatus; cbn [negb] in H; [|discriminate].
  destruct (details_try _) as [v|e] eqn:Htry; [|discriminate].
  injection H as -> _.
  exists (details_calls t).
  unfold details_try in Htry.
  destruct (json_body _) as [data|]; [|discriminate]. cbn [bind] in Htry.
  exists data. split; [now apply Z.eqb_eq|]. split; [reflexivity|].
  destruct (py_contains "data" data) as [[|]|e] eqn:Hin; cbn [bind] in Htry;
    try discriminate.
  - destruct (py_getitem data "data") as [entries|e]; [|discriminate]. cbn [bind] in Htry.
    destruct (py_iter entries) as [games|e]; [|discriminate]. cbn [bind] in Htry.
    destruct (mapM detail_record games); discriminate.
  - split; [reflexivity|].
    destruct data as [| | |s|xs|d]; try discriminate; cbn in Hin.
    + right. right. exists s. split; [reflexivity|].
      destruct (String.index 0 "data" s); [discriminate | reflexivity].
    + right. left. exists xs. split; [reflexivity|]. now injection Hin.
    + left. exists d. split; [reflexivity|].
      destruct (dict_lookup "data" d); [discriminate | reflexivity].
Qed.

Lemma fetch_game_details_None_only_without_data_witness :
  exists c data,
    status_code (details_api (Mock.details_always (PList [PStr "errors"])) c [PInt 1])
    = 200%Z
    /\ json_body (details_api (Mock.details_always (PList [PStr "errors"])) c [PInt 1])
       = Some data
    /\ py_contains "data" data = Ok false.
Proof.
  destruct (fetch_game_details_None_only_without_data
              (Mock.details_always (PList [PStr "errors"])) [PInt 1] 1 []
              [GetDetails [PInt 1]] eq_refl)
    as (c & data & Hstatus & Hbody & Hin & _).
  exists c, data. auto.
Defined.

(** ** fetch_game_ids_from_api: a page that breaks midway *)

Lemma games_loop_objects (gs : list dict) :
  forall rest acc,
    games_loop (map PDict gs ++ rest) acc =
    games_loop rest
      (acc ++ map basic_of (filter (fun g => truthy (identifier g)) gs)).
Proof.
  induction gs as [|g gs IH]; intros rest acc.
  - cbn. now rewrite app_nil_r.
  - cbn [map app]. rewrite games_loop_cons_dict, IH. cbn [filter].
    destruct (truthy (identifier g)); [|reflexivity].
    cbn [map]. now rewrite <- app_assoc.
Qed.

Lemma games_loop_stops_at_non_object (gs : list dict) (bad : pyval)
    (rest : list pyval) (acc : list dict) :
  (forall g, bad <> PDict g) ->
  games_loop (map PDict gs ++ bad :: rest) acc =
  (acc ++ map basic_of (filter (fun g => truthy (identifier g)) gs),
   Raise AttributeError).
Proof.
  intros Hbad.
  rewrite games_loop_objects.
  apply games_loop_cons_raise.
  destruct bad; try reflexivity. now destruct (Hbad kvs).
Qed.

(** X16: when the first page holds one sort group whose items are
    objects up to one that is not, [fetch_game_ids_from_api] returns the
    records of the objects before it (those with a truthy identifier, cut
    to [max_games]); the items after it are never looked at, no further
    page is asked for, and the error is only logged. *)
Theorem fetch_game_ids_from_api_keeps_items_before_failure :
  forall (self : remote) (fuel : nat) (session : string) (max_games : Z) (t : trace)
         (body group : dict) (gs : list dict) (bad : pyval) (rest : list pyval),
    let r := sorts_api self (sorts_calls t) session None in
    (0 < max_games)%Z ->
    status_code r = 200%Z ->
    json_body r = Some (PDict body) ->
    dict_lookup "sorts" body = Some (PList [PDict group]) ->
    dict_lookup "games" group = Some (PList (map PDict gs ++ bad :: rest)) ->
    (forall g, bad <> PDict g) ->
    fetch_game_ids_from_api self (S fuel) session max_games t =
    Some (py_take max_games
            (map basic_of (filter (fun g => truthy (identifier g)) gs)),
          t ++ [GetSorts session None; Print (ErrorParsing AttributeError)]).
Proof.
  intros self fuel session max_games t body group gs bad rest r
         Hmax Hstatus Hbody Hsorts Hgames Hbad.
  unfold fetch_game_ids_from_api. cbn [pages_loop List.length Z.of_nat truthy].
  apply Z.ltb_lt in Hmax. rewrite Hmax. fold r. rewrite Hstatus, Hbody. cbn [Z.eqb negb].
  assert (Hpage : collect_page (PDict body) [] =
                  (map basic_of (filter (fun g => truthy (identifier g)) gs),
                   Raise AttributeError)).
  { unfold collect_page. cbn [py_get bind]. unfold dict_get. rewrite Hsorts.
    cbn [py_iter sorts_loop py_get bind]. unfold dict_get. rewrite Hgames.
    cbn [py_iter]. now rewrite (games_loop_stops_at_non_object _ _ _ _ Hbad). }
  rewrite Hpage. cbn. now rewrite <- app_assoc.
Qed.

Lemma fetch_game_ids_from_api_keeps_items_before_failure_witness :
  fetch_game_ids_from_api
    (Mock.listing [Mock.page [PDict [("universeId", PInt 2)]; PDict Mock.zero_item;
                              PInt 3; Mock.listed 4 "D" 1] (Some "next")])
    1 "s" 10 []
  = Some ([basic_of [("universeId", PInt 2)]],
          [GetSorts "s" None; Print (ErrorParsing AttributeError)]).
Proof.
  exact (fetch_game_ids_from_api_keeps_items_before_failure
           (Mock.listing [Mock.page [PDict [("universeId", PInt 2)]; PDict Mock.zero_item;
                                     PInt 3; Mock.listed 4 "D" 1] (Some "next")])
           0 "s" 10 []
           [("sorts", PList [PDict [("games",
                PList [PDict [("universeId", PInt 2)]; PDict Mock.zero_item;
                       PInt 3; Mock.listed 4 "D" 1])]]);
            ("nextSortsPageToken", PStr "next")]
           [("games", PList [PDict [("universeId", PInt 2)]; PDict Mock.zero_item;
                             PInt 3; Mock.listed 4 "D" 1])]
           [[("universeId", PInt 2)]; Mock.zero_item] (PInt 3) [Mock.listed 4 "D" 1]
           ltac:(lia) eq_refl eq_refl eq_refl eq_refl ltac:(intros g; discriminate)).
Defined.
